(** * Searchbox: the run registry and the polling loop of [server.py]

    A shallow embedding of the two endpoints of [server.py] that touch the
    module-level dictionary [active_runs]:

    - [process_query]  (POST /api/query, lines 42-116), and
    - [stop_generation] (POST /api/stop, lines 118-124).

    The OpenAI client is synchronous, so the only point where the coroutine
    [process_query] yields to the event loop is [await asyncio.sleep(0.5)];
    [stop_generation] contains no [await] at all.  Each activation of a
    handler between two suspension points is therefore one atomic block, and
    the server is modelled as a transition system whose steps are these
    blocks.

    The remote assistant service is a parameter: any of its calls may return
    or fail, and what it answers may change from one call to the next.  The
    exceptions of the model are those that [except Exception] catches; a
    handler is never cancelled from outside while it sleeps. *)

From Stdlib Require Import Ascii.
From stdpp Require Import base option list strings gmap pretty.

Local Open Scope string_scope.

(** ** Data *)

(** [client = OpenAI(api_key=api_key)]. *)
Record Client := { api_key : string }.

(** The value stored under [active_runs[run.id]] (lines 72-76). *)
Record RunInfo := {
  thread_id : string;
  client : Client;
  status : string
}.

Abbreviation Registry := (gmap string RunInfo).

(** [class QueryRequest(BaseModel)] (lines 37-40). *)
Record QueryRequest := {
  client_id : string;
  query : string;
  req_thread_id : option string
}.

(** One element of [message.content]: only text blocks have [.text.value]. *)
Inductive ContentBlock :=
| TextBlock (value : string)
| ImageBlock.

Record Message := { content : list ContentBlock }.

(** Exceptions that can be raised inside the [try] of [process_query]. All of
    them derive from Python's [Exception]. *)
Inductive Exc :=
| HTTPException (status_code : nat) (detail : string)
| APIError (msg : string)
| KeyError (key : string)
| IndexError
| AttributeError.

(** What a handler sends back: a JSON body, or the error response FastAPI
    builds from an [HTTPException]. *)
Inductive Response :=
| Answer (response thread run : string)
| CancelledResponse (thread : string)
| Stopping
| HTTPError (status_code : nat) (detail : string).

(** ** The remote assistant service *)

Inductive Reply (A : Type) :=
| Ok (a : A)
| Fail (msg : string).
Arguments Ok {A} a.
Arguments Fail {A} msg.

(** The methods of [client.beta.threads] used by the server.  The service is
    opaque: its answer may depend on the client, on the arguments and on the
    moment of the call (the [nat] is a logical clock counting the calls made
    so far by the whole process). *)
Record Gateway := {
  threads_create : Client -> nat -> Reply string;
  messages_create : Client -> nat -> string -> string -> Reply unit;
  runs_create : Client -> nat -> string -> string -> Reply string;
  runs_retrieve : Client -> nat -> string -> string -> Reply string;
  runs_cancel : Client -> nat -> string -> string -> Reply unit;
  messages_list : Client -> nat -> string -> Reply (list Message)
}.

Inductive GwCall :=
| ThreadsCreate
| MessagesCreate (thread text : string)
| RunsCreate (thread assistant : string)
| RunsRetrieve (thread run : string)
| RunsCancel (thread run : string)
| MessagesList (thread : string).

(** ** Process state and its history *)

(** The history is ghost state: it records every call sent to the service
    together with the registry as it was at that moment, every insertion into
    and deletion from [active_runs], and every exception that reached the
    [except] clause. The most recent event comes first. *)
Inductive Event :=
| Call (c : GwCall) (snapshot : Registry)
| Registered (run : string)
| Removed (run : string)
| Caught (e : Exc).

Record World := {
  active_runs : Registry;
  clock : nat;
  history : list Event
}.

Definition log (ev : Event) (w : World) : World :=
  {| active_runs := active_runs w; clock := clock w; history := ev :: history w |}.

Definition with_runs (r : Registry) (w : World) : World :=
  {| active_runs := r; clock := clock w; history := history w |}.

Definition tick (w : World) : World :=
  {| active_runs := active_runs w; clock := S (clock w); history := history w |}.

(** ** A state-and-exception monad for handler code *)

Inductive Outcome (A : Type) :=
| Ret (a : A)
| Raise (e : Exc).
Arguments Ret {A} a.
Arguments Raise {A} e.

Definition M (A : Type) : Type := World -> Outcome A * World.

Definition ret {A} (a : A) : M A := fun w => (Ret a, w).

Definition raise {A} (e : Exc) : M A := fun w => (Raise e, w).

Definition bind {A B} (m : M A) (k : A -> M B) : M B := fun w =>
  match m w with
  | (Ret a, w') => k a w'
  | (Raise e, w') => (Raise e, w')
  end.

Global Instance M_ret : MRet M := @ret.
Global Instance M_bind : MBind M := fun A B k m => bind m k.

(** [try: body except Exception as e: handler e]. *)
Definition try_except {A} (body : M A) (handler : Exc -> M A) : M A := fun w =>
  match body w with
  | (Ret a, w') => (Ret a, w')
  | (Raise e, w') => handler e w'
  end.

(** A call to the service: logged with the registry of that moment, answered
    by the service at the current clock, which then advances. A failure of the
    call surfaces as an exception. *)
Definition call {A} (c : GwCall) (f : nat -> Reply A) : M A := fun w =>
  let w' := tick (log (Call c (active_runs w)) w) in
  match f (clock w) with
  | Ok a => (Ret a, w')
  | Fail msg => (Raise (APIError msg), w')
  end.

(** [active_runs[k] = v]. *)
Definition runs_setitem (k : string) (v : RunInfo) : M unit := fun w =>
  (Ret tt, log (Registered k) (with_runs (<[k := v]> (active_runs w)) w)).

(** [active_runs[k]]: a [KeyError] when [k] is missing. *)
Definition runs_getitem (k : string) : M RunInfo := fun w =>
  match active_runs w !! k with
  | Some v => (Ret v, w)
  | None => (Raise (KeyError k), w)
  end.

(** [k in active_runs]. *)
Definition runs_contains (k : string) : M bool := fun w =>
  (Ret (bool_decide (is_Some (active_runs w !! k))), w).

(** [del active_runs[k]]: a [KeyError] when [k] is missing. *)
Definition runs_delitem (k : string) : M unit := fun w =>
  match active_runs w !! k with
  | Some _ => (Ret tt, log (Removed k) (with_runs (delete k (active_runs w)) w))
  | None => (Raise (KeyError k), w)
  end.

(** [active_runs[k]["status"] = s]: the stored dictionary is updated in
    place; a [KeyError] when [k] is missing. *)
Definition runs_set_status (k : string) (s : string) : M unit := fun w =>
  match active_runs w !! k with
  | Some v =>
      let v' := {| thread_id := thread_id v; client := client v; status := s |} in
      (Ret tt, with_runs (<[k := v']> (active_runs w)) w)
  | None => (Raise (KeyError k), w)
  end.

(** [messages.data[0].content[0].text.value] (line 102). *)
Definition latest_text (data : list Message) : M string :=
  match data with
  | [] => raise IndexError
  | m :: _ =>
      match content m with
      | [] => raise IndexError
      | TextBlock v :: _ => ret v
      | ImageBlock :: _ => raise AttributeError
      end
  end.

(** Truth value of [not request.thread_id]: [None] and the empty string are
    both falsy. *)
Definition not_thread_id (t : option string) : bool :=
  match t with
  | None => true
  | Some s => bool_decide (s = "")
  end.

(** How FastAPI answers when a handler raises. *)
Definition http_response (e : Exc) : Response :=
  match e with
  | HTTPException c d => HTTPError c d
  | _ => HTTPError 500 "Internal Server Error"
  end.

(** A query handler is either suspended in [await asyncio.sleep(0.5)], with
    its locals [client], [thread_id] and [run.id], or it has answered. *)
Inductive Task :=
| Polling (c : Client) (thread run : string)
| Finished (r : Response).

(** The dictionary stored by lines 72-76. *)
Definition new_entry (c : Client) (thread : string) : RunInfo :=
  {| thread_id := thread; client := c; status := "running" |}.

(** ** The handlers *)

Section Handlers.

(** [assistants_map], built once from [assistants.csv]: client identifier to
    (assistant identifier, API key). *)
Variable assistants_map : gmap string (string * string).
Variable gw : Gateway.
(** [str(e)], as the Python runtime and the libraries compute it. *)
Variable py_str : Exc -> string.

(** Lines 113-116.  [run] is [Some id] when the local [run] is bound, which
    is what ['run' in locals()] tests. *)
Definition on_exception {A} (run : option string) (e : Exc) : M A :=
  (fun w => (Ret tt, log (Caught e) w));;
  match run with
  | Some run_id =>
      present ← runs_contains run_id;
      if (present : bool) then runs_delitem run_id else ret tt
  | None => ret tt
  end;;
  raise (HTTPException 500 (py_str e)).

(** One pass through the body of [while True] (lines 80-98), followed, when
    the loop is left by [break], by lines 100-111.  [None] means that the
    pass reached [await asyncio.sleep(0.5)]. *)
Definition poll_tick (c : Client) (thread run_id : string) : M (option Response) :=
  run_status ← call (RunsRetrieve thread run_id) (fun t => runs_retrieve gw c t thread run_id);
  info ← runs_getitem run_id;
  if decide (status info = "cancelled") then
    call (RunsCancel thread run_id) (fun t => runs_cancel gw c t thread run_id);;
    runs_delitem run_id;;
    ret (Some (CancelledResponse thread))
  else if decide (run_status = "completed") then
    messages ← call (MessagesList thread) (fun t => messages_list gw c t thread);
    latest_message ← latest_text messages;
    runs_delitem run_id;;
    ret (Some (Answer latest_message thread run_id))
  else if decide (run_status = "failed") then
    raise (HTTPException 500 "Assistant run failed")
  else
    ret None.

(** Lines 51-56: create a thread or use the one of the request. *)
Definition choose_thread (c : Client) (request : QueryRequest) : M string :=
  if not_thread_id (req_thread_id request)
  then call ThreadsCreate (threads_create gw c)
  else ret (default "" (req_thread_id request)).

(** Lines 51-69: everything in the [try] up to the binding of [run]. *)
Definition open_run (c : Client) (assistant_id : string) (request : QueryRequest)
  : M (string * string) :=
  thread ← choose_thread c request;
  call (MessagesCreate thread (query request))
       (fun t => messages_create gw c t thread (query request));;
  run_id ← call (RunsCreate thread assistant_id)
                 (fun t => runs_create gw c t thread assistant_id);
  ret (thread, run_id).

Definition settle (c : Client) (thread run_id : string)
    (o : Outcome (option Response)) : Task :=
  match o with
  | Ret None => Polling c thread run_id
  | Ret (Some r) => Finished r
  | Raise e => Finished (http_response e)
  end.

(** [process_query] from the arrival of the request to its first suspension
    or to its answer. *)
Definition process_query (request : QueryRequest) (w : World) : Task * World :=
  match assistants_map !! client_id request with
  | None => (Finished (HTTPError 404 "Client ID not found"), w)
  | Some (assistant_id, key) =>
      let c := {| api_key := key |} in
      match try_except (open_run c assistant_id request) (on_exception None) w with
      | (Raise e, w1) => (Finished (http_response e), w1)
      | (Ret (thread, run_id), w1) =>
          let '(o, w2) :=
            try_except
              (runs_setitem run_id (new_entry c thread);;
               poll_tick c thread run_id)
              (on_exception (Some run_id)) w1 in
          (settle c thread run_id o, w2)
      end
  end.

(** [process_query] from the end of a sleep to the next suspension or to
    its answer. *)
Definition process_query_resume (c : Client) (thread run_id : string) (w : World)
  : Task * World :=
  let '(o, w') :=
    try_except (poll_tick c thread run_id) (on_exception (Some run_id)) w in
  (settle c thread run_id o, w').

(** Lines 118-124. *)
Definition stop_generation (run_id : string) : M Response :=
  present ← runs_contains run_id;
  if negb present then
    raise (HTTPException 404 "Run not found or already completed")
  else
    runs_set_status run_id "cancelled";;
    ret Stopping.

Definition stop_endpoint (run_id : string) (w : World) : Response * World :=
  match stop_generation run_id w with
  | (Ret r, w') => (r, w')
  | (Raise e, w') => (http_response e, w')
  end.

End Handlers.

(** ** The server as a transition system *)

(** What can happen next: a query arrives and its handler runs up to its first
    suspension; the sleep of the [i]-th handler ends and it runs up to its
    next suspension; a stop request arrives and is answered at once. *)
Inductive Action :=
| Query (request : QueryRequest)
| Wake (i : nat)
| Stop (run_id : string).

Record System := {
  world : World;
  tasks : list Task;
  stop_replies : list Response
}.

Definition boot : System :=
  {| world := {| active_runs := ∅; clock := 0; history := [] |};
     tasks := [];
     stop_replies := [] |}.

Section Server.

Variable assistants_map : gmap string (string * string).
Variable gw : Gateway.
Variable py_str : Exc -> string.

Definition step (s : System) (a : Action) : System :=
  match a with
  | Query request =>
      let '(t, w) := process_query assistants_map gw py_str request (world s) in
      {| world := w; tasks := tasks s ++ [t]; stop_replies := stop_replies s |}
  | Wake i =>
      match tasks s !! i with
      | Some (Polling c thread run_id) =>
          let '(t, w) := process_query_resume gw py_str c thread run_id (world s) in
          {| world := w; tasks := <[i := t]> (tasks s); stop_replies := stop_replies s |}
      | _ => s
      end
  | Stop run_id =>
      let '(r, w) := stop_endpoint run_id (world s) in
      {| world := w; tasks := tasks s; stop_replies := r :: stop_replies s |}
  end.

Definition run_server (s : System) (l : list Action) : System := foldl step s l.

End Server.

(** ** A handler whose task is cancelled while it sleeps *)

(** What can be raised inside the [try] of [process_query]: an exception of
    [Exc], all of which derive from [Exception], or [asyncio.CancelledError],
    which [await asyncio.sleep(0.5)] (line 98) raises when the task of the
    handler is cancelled and which derives from [BaseException] only. *)
Inductive Raised :=
| Ordinary (e : Exc)
| CancelledError.

Section Cancellation.

Variable py_str : Exc -> string.

(** The clause [except Exception as e] of lines 113-116, for something raised
    inside the [try]: it runs for an [Exception]; anything else passes it
    with no statement executed.  The result is the response that is sent, or
    what goes on propagating out of the handler. *)
Definition except_Exception (run : option string) (x : Raised) (w : World)
  : (Response + Raised) * World :=
  match x with
  | Ordinary e =>
      match on_exception py_str (A := Response) run e w with
      | (Ret r, w') => (inl r, w')
      | (Raise e', w') => (inl (http_response e'), w')
      end
  | CancelledError => (inr CancelledError, w)
  end.

(** The handler suspended at line 98, with [run] bound, when its task is
    cancelled. *)
Definition process_query_cancelled (run_id : string) (w : World)
  : (Response + Raised) * World :=
  except_Exception (Some run_id) CancelledError w.

End Cancellation.

(** ** The script endpoint *)

(** Exceptions of [generate_script] (lines 126-141): those of the query
    handler, and the [ValueError] of [int]. *)
Inductive ScriptExc :=
| Plain (e : Exc)
| ValueError.

(** What the script endpoint sends back: [{"script": ...}], or an error
    response. *)
Inductive ScriptResponse :=
| ScriptBody (script : string)
| ScriptError (status_code : nat) (detail : string).

(** [primary_color.startswith('#')]. *)
Definition starts_with_hash (s : string) : bool :=
  match s with
  | String c _ => bool_decide (c = "#"%char)
  | EmptyString => false
  end.

Section Script.

Variable assistants_map : gmap string (string * string).
(** [int(s, 16)] of the Python runtime; [None] stands for its [ValueError]. *)
Variable py_int16 : string -> option Z.
(** The static text of the f-string of lines 143-606, once its doubled braces
    are read as single ones: before [{client_id}], between [{client_id}] and
    [{primary_color}], between [{primary_color}] and [{primary_light}], and
    after [{primary_light}]. *)
Variables text_open text_color text_light text_rest : string.

(** Line 134: [tuple(int(primary_color[i:i+2], 16) for i in (1, 3, 5))]; a
    slice that reaches past the end of the string is cut short, as in
    Python. *)
Definition parse_rgb (primary_color : string) : option (list Z) :=
  r ← py_int16 (String.substring 1 2 primary_color);
  g ← py_int16 (String.substring 3 2 primary_color);
  b ← py_int16 (String.substring 5 2 primary_color);
  Some [r; g; b].

(** Line 141.  [None] and the empty tuple are falsy; [primary_rgb[i]] raises
    [IndexError] past the end of the tuple. *)
Definition primary_light (primary_rgb : option (list Z)) : ScriptExc + string :=
  match primary_rgb with
  | None | Some [] => inr "rgba(184, 148, 247, 0.1)"
  | Some t =>
      match t !! 0, t !! 1, t !! 2 with
      | Some r, Some g, Some b =>
          inr ("rgba(" +:+ pretty r +:+ ", " +:+ pretty g +:+ ", " +:+ pretty b +:+ ", 0.1)")
      | _, _, _ => inl (Plain IndexError)
      end
  end.

(** Lines 139-606. *)
Definition generate_widget_script (client_id primary_color : string)
    (primary_rgb : option (list Z)) : ScriptExc + string :=
  match primary_light primary_rgb with
  | inl e => inl e
  | inr light =>
      inr (text_open +:+ client_id +:+ text_color +:+ primary_color
           +:+ text_light +:+ light +:+ text_rest)
  end.

(** Lines 126-137; [primary_color] is [None] when the query string does not
    give it. *)
Definition generate_script (client_id : string) (primary_color : option string)
  : ScriptExc + string :=
  let primary_color := default "#b894f7" primary_color in
  match assistants_map !! client_id with
  | None => inl (Plain (HTTPException 404 "Client ID not found"))
  | Some _ =>
      if starts_with_hash primary_color then
        match parse_rgb primary_color with
        | None => inl ValueError
        | Some rgb => generate_widget_script client_id primary_color (Some rgb)
        end
      else generate_widget_script client_id primary_color None
  end.

(** The endpoint as a client sees it: an exception that is not an
    [HTTPException] becomes FastAPI's plain 500. *)
Definition script_endpoint (client_id : string) (primary_color : option string)
  : ScriptResponse :=
  match generate_script client_id primary_color with
  | inr script => ScriptBody script
  | inl (Plain (HTTPException c d)) => ScriptError c d
  | inl _ => ScriptError 500 "Internal Server Error"
  end.

End Script.

(** ** A scripted service, for running the model *)

(** [demo_gateway statuses cancel_ok] hands out thread and run identifiers
    numbered by the clock, reports the run status [statuses t] at clock [t],
    accepts a cancellation iff [cancel_ok], and lists one message whose text is
    ["hello"]. *)
Definition demo_gateway (statuses : nat -> string) (cancel_ok : bool) : Gateway :=
  {| threads_create := fun _ t => Ok ("thread_" +:+ pretty t);
     messages_create := fun _ _ _ _ => Ok tt;
     runs_create := fun _ t _ _ => Ok ("run_" +:+ pretty t);
     runs_retrieve := fun _ t _ _ => Ok (statuses t);
     runs_cancel := fun _ _ _ _ =>
       if cancel_ok then Ok tt else Fail "Cannot cancel run with status 'completed'.";
     messages_list := fun _ _ _ =>
       Ok [ {| content := [TextBlock "hello"] |} ] |}.

Definition demo_map : gmap string (string * string) :=
  {[ "acme" := ("asst_1", "sk-1") ]}.

(** Starlette's [HTTPException.__str__] and the usual [str] of the built-in
    exceptions, for running the model. *)
Definition demo_str (e : Exc) : string :=
  match e with
  | HTTPException c d => pretty c +:+ ": " +:+ d
  | APIError m => m
  | KeyError k => "'" +:+ k +:+ "'"
  | IndexError => "list index out of range"
  | AttributeError => "object has no attribute 'text'"
  end.

Definition demo_request (t : option string) : QueryRequest :=
  {| client_id := "acme"; query := "hi"; req_thread_id := t |}.

Definition in_progress (_ : nat) : string := "in_progress".

Definition demo_world (r : Registry) : World :=
  {| active_runs := r; clock := 0; history := [] |}.

Definition demo_info (s : string) : RunInfo :=
  {| thread_id := "t1"; client := {| api_key := "sk-1" |}; status := s |}.

Definition demo_client : Client := {| api_key := "sk-1" |}.

(** The service while the run is in progress, once it has completed, and
    once it has failed. *)
Definition gw_idle : Gateway := demo_gateway in_progress true.
Definition gw_done : Gateway := demo_gateway (fun _ => "completed") true.
Definition gw_failed : Gateway := demo_gateway (fun _ => "failed") true.

(** A process in which run ["r1"] of thread ["t1"] is registered, and the
    same after a stop request for it. *)
Definition w_registered : World := demo_world {[ "r1" := demo_info "running" ]}.
Definition w_flagged : World := demo_world {[ "r1" := demo_info "cancelled" ]}.

(** A query, a stop request for its run, the next pass of its loop, and a
    second stop request. *)
Definition demo_session : list Action :=
  [Query (demo_request None); Stop "run_2"; Wake 0; Stop "run_2"].

(** A service that is down: every call fails. *)
Definition gw_down : Gateway :=
  {| threads_create := fun _ _ => Fail "Connection error.";
     messages_create := fun _ _ _ _ => Fail "Connection error.";
     runs_create := fun _ _ _ _ => Fail "Connection error.";
     runs_retrieve := fun _ _ _ _ => Fail "Connection error.";
     runs_cancel := fun _ _ _ _ => Fail "Connection error.";
     messages_list := fun _ _ _ => Fail "Connection error." |}.

(** A service that reports the run completed but lists no message. *)
Definition gw_silent : Gateway :=
  {| threads_create := fun _ t => Ok ("thread_" +:+ pretty t);
     messages_create := fun _ _ _ _ => Ok tt;
     runs_create := fun _ t _ _ => Ok ("run_" +:+ pretty t);
     runs_retrieve := fun _ _ _ _ => Ok "completed";
     runs_cancel := fun _ _ _ _ => Ok tt;
     messages_list := fun _ _ _ => Ok [] |}.

(** A service that refuses every cancellation. *)
Definition gw_refusing : Gateway := demo_gateway (fun _ => "completed") false.

(** The value of one hexadecimal digit. *)
Definition hex_digit (c : ascii) : option Z :=
  let n := Z.of_nat (nat_of_ascii c) in
  if bool_decide (48 <= n <= 57)%Z then Some (n - 48)%Z
  else if bool_decide (97 <= n <= 102)%Z then Some (n - 87)%Z
  else if bool_decide (65 <= n <= 70)%Z then Some (n - 55)%Z
  else None.

(** [int(s, 16)] on strings of one or two hexadecimal digits; every other
    string is rejected here. *)
Definition demo_int16 (s : string) : option Z :=
  match s with
  | String a EmptyString => hex_digit a
  | String a (String b EmptyString) =>
      x ← hex_digit a; y ← hex_digit b; Some (16 * x + y)%Z
  | _ => None
  end.

(** Short stand-ins for the four static parts of the script. *)
Definition demo_open : string := "const clientId = ".
Definition demo_color : string := "; --ai-primary-color: ".
Definition demo_light : string := "; --ai-primary-light: ".
Definition demo_rest : string := ";".

(** The server after one query whose run is in progress. *)
Definition s_polling : System :=
  run_server demo_map gw_idle demo_str boot [Query (demo_request None)].

(** ** Reading the history *)

Fixpoint count_registered (run_id : string) (h : list Event) : nat :=
  match h with
  | [] => 0
  | Registered r :: h' => (if decide (r = run_id) then 1 else 0) + count_registered run_id h'
  | _ :: h' => count_registered run_id h'
  end.

Fixpoint count_removed (run_id : string) (h : list Event) : nat :=
  match h with
  | [] => 0
  | Removed r :: h' => (if decide (r = run_id) then 1 else 0) + count_removed run_id h'
  | _ :: h' => count_removed run_id h'
  end.

(** Number of [KeyError]s that reached an [except] clause. *)
Fixpoint key_errors (h : list Event) : nat :=
  match h with
  | [] => 0
  | Caught (KeyError _) :: h' => S (key_errors h')
  | _ :: h' => key_errors h'
  end.

(** The service never hands out the same run identifier twice. *)
Definition fresh_run_ids (gw : Gateway) : Prop :=
  forall c1 c2 t1 t2 th1 th2 a1 a2 r,
    runs_create gw c1 t1 th1 a1 = Ok r ->
    runs_create gw c2 t2 th2 a2 = Ok r ->
    t1 = t2.

(** Between [w] and [w'] the run was inserted into [active_runs] once. *)
Definition registers (run_id : string) (w w' : World) : Prop :=
  count_registered run_id (history w') = S (count_registered run_id (history w)).

(** Number of entries stored under a run identifier. *)
Definition entries (r : Registry) (run_id : string) : nat :=
  match r !! run_id with
  | Some _ => 1
  | None => 0
  end.

(** The handler at position [i] of the task list is suspended in the polling
    loop of this run. *)
Definition polls (ts : list Task) (i : nat) (run_id : string) : Prop :=
  exists c thread, ts !! i = Some (Polling c thread run_id).

(** What holds between the registry, the suspended handlers and the history
    in every state the server can reach. *)
Record consistent (gw : Gateway) (s : System) : Prop := {
  cons_owned : forall run_id,
    is_Some (active_runs (world s) !! run_id) -> exists i, polls (tasks s) i run_id;
  cons_present : forall i run_id,
    polls (tasks s) i run_id -> is_Some (active_runs (world s) !! run_id);
  cons_unique : forall i j run_id,
    polls (tasks s) i run_id -> polls (tasks s) j run_id -> i = j;
  cons_issued : forall run_id,
    0 < count_registered run_id (history (world s)) ->
    exists c tm thread a,
      tm < clock (world s) /\ runs_create gw c tm thread a = Ok run_id;
  cons_balance : forall run_id,
    count_registered run_id (history (world s))
    = count_removed run_id (history (world s)) + entries (active_runs (world s)) run_id;
  cons_once : forall run_id,
    count_registered run_id (history (world s)) <= 1;
  cons_no_key_error : key_errors (history (world s)) = 0
}.

(** The thread identifier a handler is working on or has answered with. *)
Definition task_thread (t : Task) : option string :=
  match t with
  | Polling _ thread _ => Some thread
  | Finished (Answer _ thread _) => Some thread
  | Finished (CancelledResponse thread) => Some thread
  | Finished _ => None
  end.

(** * Properties *)

Ltac py_unfold :=
  unfold process_query, open_run, choose_thread,
    process_query_resume, stop_endpoint, stop_generation, try_except,
    on_exception, poll_tick, settle, runs_getitem, runs_delitem, runs_contains,
    runs_setitem, runs_set_status, latest_text, call, mbind, M_bind, bind,
    mret, M_ret, ret, raise, tick, log, with_runs in *;
  simpl in *.

(** Runs handler code forward, using the equations in the context for the
    answers of the service and for registry lookups. *)
Ltac py_run :=
  py_unfold;
  repeat first
    [ match goal with
      | H : _ = _ |- _ => rewrite H
      end
    | rewrite lookup_delete_eq
    | rewrite lookup_insert_eq
    | progress simpl
    | case_decide; [ try congruence | try congruence ] ].

Section StopEndpoint.

(** A stop request for a registered run is acknowledged and only rewrites
    the status of that entry. *)
Lemma stop_registered (run_id : string) (w : World) (info : RunInfo) :
  active_runs w !! run_id = Some info ->
  stop_endpoint run_id w =
    (Stopping,
     with_runs (<[run_id := {| thread_id := thread_id info; client := client info;
                               status := "cancelled" |}]> (active_runs w)) w).
Proof.
  intros H. py_unfold. rewrite H.
  rewrite bool_decide_eq_true_2 by eauto. simpl. rewrite H. reflexivity.
Qed.

Lemma stop_unregistered (run_id : string) (w : World) :
  active_runs w !! run_id = None ->
  stop_endpoint run_id w = (HTTPError 404 "Run not found or already completed", w).
Proof.
  intros H. py_unfold. rewrite H.
  rewrite bool_decide_eq_false_2 by (intros [? ?]; discriminate).
  reflexivity.
Qed.

(** A stop request never touches the history and never changes which run
    identifiers are registered. *)
Lemma stop_keeps (run_id : string) (w : World) :
  history (snd (stop_endpoint run_id w)) = history w /\
  clock (snd (stop_endpoint run_id w)) = clock w /\
  forall r, is_Some (active_runs (snd (stop_endpoint run_id w)) !! r)
            <-> is_Some (active_runs w !! r).
Proof.
  destruct (active_runs w !! run_id) as [info|] eqn:H.
  - rewrite (stop_registered _ _ _ H). simpl. split; [done|]. split; [done|].
    intros r. destruct (decide (run_id = r)) as [->|Hne].
    + rewrite lookup_insert_eq, H. split; eauto.
    + by rewrite lookup_insert_ne.
  - rewrite (stop_unregistered _ _ H). simpl. done.
Qed.

(** C7: for a run identifier that is not in the registry (never registered,
    or already removed), the stop endpoint answers 404 and leaves the
    registry, and indeed the whole process state, unchanged. *)
Theorem stop_unknown_run_not_found (run_id : string) (w : World) :
  active_runs w !! run_id = None ->
  fst (stop_endpoint run_id w) = HTTPError 404 "Run not found or already completed" /\
  active_runs (snd (stop_endpoint run_id w)) = active_runs w /\
  snd (stop_endpoint run_id w) = w.
Proof.
  intros H. rewrite (stop_unregistered _ _ H). done.
Qed.

(** C3, as the code has it: two stop requests in a row for a registered run
    are both acknowledged with "stopping"; the second finds the entry still
    present, with status "cancelled", and leaves the process state as the
    first left it. *)
Theorem stop_twice_both_stopping (run_id : string) (w : World) :
  is_Some (active_runs w !! run_id) ->
  let w1 := snd (stop_endpoint run_id w) in
  let w2 := snd (stop_endpoint run_id w1) in
  fst (stop_endpoint run_id w) = Stopping /\
  fst (stop_endpoint run_id w1) = Stopping /\
  status <$> active_runs w1 !! run_id = Some "cancelled" /\
  w2 = w1.
Proof.
  intros [info H]. simpl.
  rewrite (stop_registered _ _ _ H). simpl.
  set (info' := {| thread_id := thread_id info; client := client info; status := "cancelled" |}).
  assert (H1 : active_runs (with_runs (<[run_id := info']> (active_runs w)) w) !! run_id
               = Some info') by (simpl; apply lookup_insert_eq).
  rewrite (stop_registered _ _ _ H1). simpl.
  rewrite lookup_insert_eq. simpl.
  repeat split. unfold with_runs. simpl. f_equal.
  rewrite insert_insert_eq. reflexivity.
Qed.

End StopEndpoint.

(** C3: with ["r1"] registered, the second of two stop requests in a row is
    acknowledged with "stopping"; it is not answered 404. *)
Lemma stop_twice_second_not_404 :
  let w0 := demo_world {[ "r1" := demo_info "running" ]} in
  let w1 := snd (stop_endpoint "r1" w0) in
  fst (stop_endpoint "r1" w0) = Stopping /\
  fst (stop_endpoint "r1" w1) = Stopping /\
  fst (stop_endpoint "r1" w1) <> HTTPError 404 "Run not found or already completed".
Proof. vm_compute. repeat split; discriminate. Qed.

Lemma stop_twice_both_stopping_witness :
  let w0 := demo_world {[ "r1" := demo_info "running" ]} in
  let w1 := snd (stop_endpoint "r1" w0) in
  let w2 := snd (stop_endpoint "r1" w1) in
  fst (stop_endpoint "r1" w0) = Stopping /\
  fst (stop_endpoint "r1" w1) = Stopping /\
  status <$> active_runs w1 !! "r1" = Some "cancelled" /\
  w2 = w1.
Proof.
  apply (stop_twice_both_stopping "r1" (demo_world {[ "r1" := demo_info "running" ]})).
  vm_compute. eauto.
Defined.

Lemma stop_unknown_run_not_found_witness :
  let w0 := demo_world {[ "r1" := demo_info "running" ]} in
  fst (stop_endpoint "r2" w0) = HTTPError 404 "Run not found or already completed" /\
  active_runs (snd (stop_endpoint "r2" w0)) = active_runs w0 /\
  snd (stop_endpoint "r2" w0) = w0.
Proof.
  apply (stop_unknown_run_not_found "r2" (demo_world {[ "r1" := demo_info "running" ]})).
  vm_compute. reflexivity.
Defined.

Section Ticks.

Variable gw : Gateway.
Variable py_str : Exc -> string.

Local Abbreviation resume := (process_query_resume gw py_str).

(** What one activation of the polling loop does to the process state, in
    every case: it stays suspended and changes nothing but the clock and
    the calls in the history; or it answers, having deleted its entry once;
    or it found no entry under its run identifier and answers an error. *)
Lemma resume_effect (c : Client) (thread run_id : string) (w : World) :
  let t := fst (resume c thread run_id w) in
  let w' := snd (resume c thread run_id w) in
  clock w <= clock w' /\
  (forall r, count_registered r (history w') = count_registered r (history w)) /\
  ((t = Polling c thread run_id /\
    is_Some (active_runs w !! run_id) /\
    active_runs w' = active_runs w /\
    (forall r, count_removed r (history w') = count_removed r (history w)) /\
    key_errors (history w') = key_errors (history w))
   \/
   ((exists resp, t = Finished resp) /\
    is_Some (active_runs w !! run_id) /\
    active_runs w' = delete run_id (active_runs w) /\
    (forall r, count_removed r (history w')
               = (if decide (run_id = r) then 1 else 0) + count_removed r (history w)) /\
    key_errors (history w') = key_errors (history w))
   \/
   ((exists resp, t = Finished resp) /\
    active_runs w !! run_id = None /\
    active_runs w' = active_runs w /\
    (forall r, count_removed r (history w') = count_removed r (history w)))).
Proof.
  py_unfold.
  destruct (runs_retrieve gw c (clock w) thread run_id) as [st|msg]; simpl;
    destruct (active_runs w !! run_id) as [info|] eqn:Hin; simpl.
  all: repeat (first [ rewrite Hin | rewrite lookup_delete_eq | case_decide | case_match ];
               simplify_eq/=).
  all: try match goal with
           | H : bool_decide _ = _ |- _ =>
               rewrite ?Hin, ?lookup_delete_eq in H; by vm_compute in H
           end.
  all: (split; [lia|]); (split; [done|]).
  all: eauto 10.
Qed.

(** The pass that observes the flag, when the service accepts the
    cancellation. *)
Lemma tick_cancelled (c : Client) (thread run_id : string) (w : World)
    (info : RunInfo) (st : string) :
  active_runs w !! run_id = Some info ->
  status info = "cancelled" ->
  runs_retrieve gw c (clock w) thread run_id = Ok st ->
  runs_cancel gw c (S (clock w)) thread run_id = Ok tt ->
  resume c thread run_id w =
    (Finished (CancelledResponse thread),
     {| active_runs := delete run_id (active_runs w);
        clock := S (S (clock w));
        history := Removed run_id
                   :: Call (RunsCancel thread run_id) (active_runs w)
                   :: Call (RunsRetrieve thread run_id) (active_runs w)
                   :: history w |}).
Proof. intros Hin Hst Hr Hc. py_run. reflexivity. Qed.

(** The same pass when the service refuses the cancellation: the handler
    still deletes the entry and answers 500. *)
Lemma tick_cancelled_refused (c : Client) (thread run_id : string) (w : World)
    (info : RunInfo) (st msg : string) :
  active_runs w !! run_id = Some info ->
  status info = "cancelled" ->
  runs_retrieve gw c (clock w) thread run_id = Ok st ->
  runs_cancel gw c (S (clock w)) thread run_id = Fail msg ->
  resume c thread run_id w =
    (Finished (HTTPError 500 (py_str (APIError msg))),
     {| active_runs := delete run_id (active_runs w);
        clock := S (S (clock w));
        history := Removed run_id
                   :: Caught (APIError msg)
                   :: Call (RunsCancel thread run_id) (active_runs w)
                   :: Call (RunsRetrieve thread run_id) (active_runs w)
                   :: history w |}).
Proof. intros Hin Hst Hr Hc. py_run. reflexivity. Qed.

(** The pass in which the poll reports "completed", the entry not being
    flagged and the latest message starting with a text block. *)
Lemma tick_completed (c : Client) (thread run_id : string) (w : World)
    (info : RunInfo) (text : string) (blocks : list ContentBlock)
    (older : list Message) :
  active_runs w !! run_id = Some info ->
  status info <> "cancelled" ->
  runs_retrieve gw c (clock w) thread run_id = Ok "completed" ->
  messages_list gw c (S (clock w)) thread
    = Ok ({| content := TextBlock text :: blocks |} :: older) ->
  resume c thread run_id w =
    (Finished (Answer text thread run_id),
     {| active_runs := delete run_id (active_runs w);
        clock := S (S (clock w));
        history := Removed run_id
                   :: Call (MessagesList thread) (active_runs w)
                   :: Call (RunsRetrieve thread run_id) (active_runs w)
                   :: history w |}).
Proof. intros Hin Hst Hr Hl. py_run. reflexivity. Qed.

(** The pass in which the poll reports "failed", the entry not being
    flagged. *)
Lemma tick_failed (c : Client) (thread run_id : string) (w : World) (info : RunInfo) :
  active_runs w !! run_id = Some info ->
  status info <> "cancelled" ->
  runs_retrieve gw c (clock w) thread run_id = Ok "failed" ->
  resume c thread run_id w =
    (Finished (HTTPError 500 (py_str (HTTPException 500 "Assistant run failed"))),
     {| active_runs := delete run_id (active_runs w);
        clock := S (clock w);
        history := Removed run_id
                   :: Caught (HTTPException 500 "Assistant run failed")
                   :: Call (RunsRetrieve thread run_id) (active_runs w)
                   :: history w |}).
Proof. intros Hin Hst Hr. py_run. reflexivity. Qed.

(** C1: a run is registered and a stop request for it is acknowledged;
    at the loop's next check (the status poll returned, the service accepts
    the cancellation) the loop sends the cancellation to the service,
    deletes the entry and answers "cancelled" with the thread identifier;
    a later stop request for that run is answered 404. *)
Theorem cancel_request_then_tick (c : Client) (thread run_id : string)
    (w : World) (info : RunInfo) (st : string) :
  active_runs w !! run_id = Some info ->
  let w1 := snd (stop_endpoint run_id w) in
  runs_retrieve gw c (clock w1) thread run_id = Ok st ->
  runs_cancel gw c (S (clock w1)) thread run_id = Ok tt ->
  let w2 := snd (resume c thread run_id w1) in
  fst (stop_endpoint run_id w) = Stopping /\
  fst (resume c thread run_id w1) = Finished (CancelledResponse thread) /\
  history w2 = Removed run_id
               :: Call (RunsCancel thread run_id) (active_runs w1)
               :: Call (RunsRetrieve thread run_id) (active_runs w1)
               :: history w1 /\
  active_runs w2 !! run_id = None /\
  fst (stop_endpoint run_id w2) = HTTPError 404 "Run not found or already completed".
Proof.
  intros Hin w1 Hr Hc w2. subst w2 w1.
  rewrite (stop_registered _ _ _ Hin) in *. simpl in *.
  set (flagged := {| thread_id := thread_id info; client := client info;
                     status := "cancelled" |}) in *.
  rewrite (tick_cancelled c thread run_id
             (with_runs (<[run_id := flagged]> (active_runs w)) w) flagged st
             (lookup_insert_eq _ _ _) eq_refl Hr Hc). simpl.
  split; [done|]. split; [done|]. split; [done|].
  split; [apply lookup_delete_eq|].
  rewrite stop_unregistered; [done|]. apply lookup_delete_eq.
Qed.

(** C8, as the code has it: in a pass where the entry's status is
    "cancelled", the status that the poll of that pass reports, "completed"
    and "failed" included, is not looked at.  The loop sends the cancellation
    to the service; when the service accepts it, the loop deletes the entry
    and answers "cancelled"; when the service refuses it, the handler deletes
    the entry and answers 500 with the string of the service's error.  Either
    way the messages are not listed, no reply is sent, and the failure of the
    run is not raised. *)
Theorem cancelled_flag_beats_terminal_status (c : Client) (thread run_id : string)
    (w : World) (info : RunInfo) (st : string) :
  active_runs w !! run_id = Some info ->
  status info = "cancelled" ->
  runs_retrieve gw c (clock w) thread run_id = Ok st ->
  st = "completed" \/ st = "failed" ->
  let t := fst (resume c thread run_id w) in
  let w' := snd (resume c thread run_id w) in
  (runs_cancel gw c (S (clock w)) thread run_id = Ok tt ->
   t = Finished (CancelledResponse thread) /\
   history w' = Removed run_id
                :: Call (RunsCancel thread run_id) (active_runs w)
                :: Call (RunsRetrieve thread run_id) (active_runs w)
                :: history w) /\
  (forall msg, runs_cancel gw c (S (clock w)) thread run_id = Fail msg ->
   t = Finished (HTTPError 500 (py_str (APIError msg))) /\
   history w' = Removed run_id
                :: Caught (APIError msg)
                :: Call (RunsCancel thread run_id) (active_runs w)
                :: Call (RunsRetrieve thread run_id) (active_runs w)
                :: history w) /\
  (forall text, t <> Finished (Answer text thread run_id)) /\
  active_runs w' !! run_id = None /\
  clock w' = S (S (clock w)).
Proof.
  intros Hin Hst Hr _. simpl.
  destruct (runs_cancel gw c (S (clock w)) thread run_id) as [[]|msg] eqn:Hc.
  - rewrite (tick_cancelled _ _ _ _ _ _ Hin Hst Hr Hc). simpl.
    split; [done|]. split; [done|]. split; [done|].
    split; [apply lookup_delete_eq|done].
  - rewrite (tick_cancelled_refused _ _ _ _ _ _ _ Hin Hst Hr Hc). simpl.
    split; [done|]. split; [by intros ? [= <-]|]. split; [done|].
    split; [apply lookup_delete_eq|done].
Qed.

(** C4, as the code has it: when the poll reports "completed" and the entry
    is not flagged, the loop lists the messages while the entry is still in
    the registry, and only then deletes the entry and answers with the text
    of the latest message. *)
Theorem completed_lists_then_removes (c : Client) (thread run_id : string)
    (w : World) (info : RunInfo) (text : string)
    (blocks : list ContentBlock) (older : list Message) :
  active_runs w !! run_id = Some info ->
  status info <> "cancelled" ->
  runs_retrieve gw c (clock w) thread run_id = Ok "completed" ->
  messages_list gw c (S (clock w)) thread
    = Ok ({| content := TextBlock text :: blocks |} :: older) ->
  let t := fst (resume c thread run_id w) in
  let w' := snd (resume c thread run_id w) in
  t = Finished (Answer text thread run_id) /\
  (exists snapshot,
     history w' = Removed run_id
                  :: Call (MessagesList thread) snapshot
                  :: Call (RunsRetrieve thread run_id) (active_runs w)
                  :: history w /\
     snapshot !! run_id = Some info) /\
  active_runs w' = delete run_id (active_runs w) /\
  active_runs w' !! run_id = None.
Proof.
  intros Hin Hst Hr Hl. simpl.
  rewrite (tick_completed _ _ _ _ _ _ _ _ Hin Hst Hr Hl). simpl.
  split; [done|]. split; [eauto|]. split; [done|]. apply lookup_delete_eq.
Qed.

(** C6: when the poll reports "failed" and the entry is not flagged, the
    loop raises, the handler deletes the entry, and the endpoint answers
    500 with the string of the raised exception as its detail; the poll was
    the only call sent to the service in that pass. *)
Theorem failed_run_answers_500 (c : Client) (thread run_id : string)
    (w : World) (info : RunInfo) :
  active_runs w !! run_id = Some info ->
  status info <> "cancelled" ->
  runs_retrieve gw c (clock w) thread run_id = Ok "failed" ->
  let t := fst (resume c thread run_id w) in
  let w' := snd (resume c thread run_id w) in
  t = Finished (HTTPError 500 (py_str (HTTPException 500 "Assistant run failed"))) /\
  active_runs w' = delete run_id (active_runs w) /\
  active_runs w' !! run_id = None /\
  history w' = Removed run_id
               :: Caught (HTTPException 500 "Assistant run failed")
               :: Call (RunsRetrieve thread run_id) (active_runs w)
               :: history w /\
  clock w' = S (clock w).
Proof.
  intros Hin Hst Hr. simpl.
  rewrite (tick_failed _ _ _ _ _ Hin Hst Hr). simpl.
  repeat split. apply lookup_delete_eq.
Qed.

(** A pass only adds to the history. *)
Lemma resume_history (c : Client) (thread run_id : string) (w : World) :
  history w `suffix_of` history (snd (resume c thread run_id w)).
Proof.
  py_unfold.
  destruct (runs_retrieve gw c (clock w) thread run_id) as [st|msg]; simpl;
    destruct (active_runs w !! run_id) as [info|] eqn:Hin; simpl.
  all: repeat (first [ rewrite Hin | rewrite lookup_delete_eq | case_decide | case_match ];
               simplify_eq/=).
  all: repeat first [ reflexivity | apply suffix_cons_r ].
Qed.

(** The thread a pass answers with is the handler's own. *)
Lemma resume_thread (c : Client) (thread run_id : string) (w : World) (t' : string) :
  task_thread (fst (resume c thread run_id w)) = Some t' -> t' = thread.
Proof.
  py_unfold.
  destruct (runs_retrieve gw c (clock w) thread run_id) as [st|msg]; simpl;
    destruct (active_runs w !! run_id) as [info|] eqn:Hin; simpl.
  all: repeat (first [ rewrite Hin | rewrite lookup_delete_eq | case_decide | case_match ];
               simplify_eq/=).
  all: congruence.
Qed.

End Ticks.

Section FirstPass.

Variable assistants_map : gmap string (string * string).
Variable gw : Gateway.
Variable py_str : Exc -> string.

Local Abbreviation resume := (process_query_resume gw py_str).
Local Abbreviation start := (process_query assistants_map gw py_str).

(** Once [run] is bound, the rest of the first activation is the
    registration followed by an ordinary pass of the loop. *)
Lemma first_pass (request : QueryRequest) (w w1 : World)
    (assistant_id key thread run_id : string) :
  assistants_map !! client_id request = Some (assistant_id, key) ->
  open_run gw {| api_key := key |} assistant_id request w = (Ret (thread, run_id), w1) ->
  start request w =
    resume {| api_key := key |} thread run_id
      (snd (runs_setitem run_id (new_entry {| api_key := key |} thread) w1)).
Proof.
  intros Hc Ho. unfold process_query, process_query_resume.
  rewrite Hc. unfold try_except at 1. rewrite Ho.
  unfold try_except, mbind, M_bind, bind, runs_setitem. simpl. reflexivity.
Qed.

(** An exception before [run] is bound is answered 500; the registry is not
    consulted. *)
Lemma first_raise (request : QueryRequest) (w w1 : World)
    (assistant_id key : string) (e : Exc) :
  assistants_map !! client_id request = Some (assistant_id, key) ->
  open_run gw {| api_key := key |} assistant_id request w = (Raise e, w1) ->
  start request w = (Finished (HTTPError 500 (py_str e)), log (Caught e) w1).
Proof.
  intros Hc Ho. unfold process_query.
  rewrite Hc. unfold try_except at 1. rewrite Ho.
  reflexivity.
Qed.

(** Opening a run only talks to the service; a run identifier it yields was
    handed out by the service during that activation. *)
Lemma open_run_effect (c : Client) (assistant_id : string) (request : QueryRequest)
    (w : World) :
  let o := fst (open_run gw c assistant_id request w) in
  let w1 := snd (open_run gw c assistant_id request w) in
  active_runs w1 = active_runs w /\
  clock w <= clock w1 /\
  (forall r, count_registered r (history w1) = count_registered r (history w)) /\
  (forall r, count_removed r (history w1) = count_removed r (history w)) /\
  key_errors (history w1) = key_errors (history w) /\
  (forall e, o = Raise e -> exists msg, e = APIError msg) /\
  (forall thread run_id, o = Ret (thread, run_id) ->
     exists tm, clock w <= tm < clock w1 /\
                runs_create gw c tm thread assistant_id = Ok run_id).
Proof.
  py_unfold.
  destruct (not_thread_id (req_thread_id request)); simpl.
  all: repeat (case_match; simplify_eq/=).
  all: repeat split; try done; try lia; intros; simplify_eq; eauto.
  all: eexists; split; [|eassumption]; lia.
Qed.

(** What the first activation of a query handler does to the process
    state: either it answers without having registered anything, or it
    registers one run, handed out by the service during the activation, and
    then stays suspended or answers having deleted the entry again. *)
Lemma start_effect (request : QueryRequest) (w : World) :
  let t := fst (start request w) in
  let w' := snd (start request w) in
  clock w <= clock w' /\
  key_errors (history w') = key_errors (history w) /\
  (((exists resp, t = Finished resp) /\
    active_runs w' = active_runs w /\
    (forall r, count_registered r (history w') = count_registered r (history w)) /\
    (forall r, count_removed r (history w') = count_removed r (history w)))
   \/
   (exists c thread run_id tm a,
      clock w <= tm < clock w' /\
      runs_create gw c tm thread a = Ok run_id /\
      (forall r, count_registered r (history w')
                 = (if decide (run_id = r) then 1 else 0) + count_registered r (history w)) /\
      ((t = Polling c thread run_id /\
        active_runs w' = <[run_id := new_entry c thread]> (active_runs w) /\
        (forall r, count_removed r (history w') = count_removed r (history w)))
       \/
       ((exists resp, t = Finished resp) /\
        active_runs w' = delete run_id (active_runs w) /\
        (forall r, count_removed r (history w')
                   = (if decide (run_id = r) then 1 else 0) + count_removed r (history w)))))).
Proof.
  simpl.
  destruct (assistants_map !! client_id request) as [[assistant_id key]|] eqn:Hc.
  2:{ unfold process_query. rewrite Hc. simpl. split; [lia|]. split; [done|].
      left. eauto. }
  set (c := {| api_key := key |}).
  pose proof (open_run_effect c assistant_id request w) as Ho. simpl in Ho.
  destruct (open_run gw c assistant_id request w) as [[[thread run_id]|e] w1] eqn:Eo;
    simpl in Ho; destruct Ho as (Hr & Hk & Hreg & Hrem & Hkey & Hexc & Hid).
  - rewrite (first_pass request w w1 assistant_id key thread run_id Hc Eo).
    fold c.
    destruct (Hid thread run_id eq_refl) as (tm & Htm & Hcreate).
    remember (snd (runs_setitem run_id (new_entry c thread) w1)) as w2 eqn:Ew2.
    assert (Hin : is_Some (active_runs w2 !! run_id))
      by (rewrite Ew2; simpl; rewrite lookup_insert_eq; eauto).
    assert (Hclock : clock w2 = clock w1) by (by rewrite Ew2).
    assert (Hruns : active_runs w2 = <[run_id := new_entry c thread]> (active_runs w)).
    { rewrite Ew2. simpl. by rewrite Hr. }
    assert (Hcount : forall r, count_registered r (history w2)
              = (if decide (run_id = r) then 1 else 0) + count_registered r (history w)).
    { intros r. rewrite Ew2. simpl. by rewrite Hreg. }
    assert (Hcount' : forall r, count_removed r (history w2) = count_removed r (history w)).
    { intros r. rewrite Ew2. simpl. by rewrite Hrem. }
    assert (Hkeys : key_errors (history w2) = key_errors (history w)).
    { rewrite Ew2. simpl. by rewrite Hkey. }
    clear Ew2.
    pose proof (resume_effect gw py_str c thread run_id w2) as He. cbv zeta in He.
    destruct He as (Hk2 & Hreg2 & He).
    destruct He as [(Ht & _ & Hsame & Hrm & Hke)
                   |[(Ht & _ & Hdel & Hrm & Hke)|(_ & Hnone & _)]].
    + split; [lia|]. split; [congruence|]. right.
      exists c, thread, run_id, tm, assistant_id.
      split; [lia|]. split; [done|].
      split; [intros r; by rewrite Hreg2|].
      left. split; [done|]. split; [congruence|]. intros r. by rewrite Hrm.
    + split; [lia|]. split; [congruence|]. right.
      exists c, thread, run_id, tm, assistant_id.
      split; [lia|]. split; [done|].
      split; [intros r; by rewrite Hreg2|].
      right. split; [done|]. split.
      * rewrite Hdel, Hruns. apply delete_insert_eq.
      * intros r. by rewrite Hrm, Hcount'.
    + destruct Hin as [? Hin]. congruence.
  - destruct (Hexc e eq_refl) as [msg ->].
    rewrite (first_raise request w w1 assistant_id key _ Hc Eo). simpl.
    split; [lia|]. split; [done|]. left.
    split; [eauto|]. split; [done|]. split; done.
Qed.

(** The first poll of a query already reports "failed": the entry registered
    a moment ago is deleted and the query is answered 500. *)
Lemma first_poll_failed (request : QueryRequest) (w w1 : World)
    (assistant_id key thread run_id : string) :
  assistants_map !! client_id request = Some (assistant_id, key) ->
  open_run gw {| api_key := key |} assistant_id request w = (Ret (thread, run_id), w1) ->
  runs_retrieve gw {| api_key := key |} (clock w1) thread run_id = Ok "failed" ->
  fst (start request w)
    = Finished (HTTPError 500 (py_str (HTTPException 500 "Assistant run failed"))) /\
  active_runs (snd (start request w)) = delete run_id (active_runs w1) /\
  clock (snd (start request w)) = S (clock w1).
Proof.
  intros Hc Ho Hr.
  rewrite (first_pass request w w1 assistant_id key thread run_id Hc Ho).
  erewrite tick_failed; simpl; [|apply lookup_insert_eq|discriminate|done].
  split; [done|]. split; [apply delete_insert_eq|done].
Qed.

(** The first poll of a query already reports "completed": the messages are
    listed with the new entry in the registry, then the entry is deleted. *)
Lemma first_poll_completed (request : QueryRequest) (w w1 : World)
    (assistant_id key thread run_id text : string)
    (blocks : list ContentBlock) (older : list Message) :
  assistants_map !! client_id request = Some (assistant_id, key) ->
  open_run gw {| api_key := key |} assistant_id request w = (Ret (thread, run_id), w1) ->
  runs_retrieve gw {| api_key := key |} (clock w1) thread run_id = Ok "completed" ->
  messages_list gw {| api_key := key |} (S (clock w1)) thread
    = Ok ({| content := TextBlock text :: blocks |} :: older) ->
  fst (start request w) = Finished (Answer text thread run_id) /\
  active_runs (snd (start request w)) = delete run_id (active_runs w1) /\
  exists snapshot,
    history (snd (start request w))
      = Removed run_id
        :: Call (MessagesList thread) snapshot
        :: Call (RunsRetrieve thread run_id) snapshot
        :: Registered run_id :: history w1 /\
    is_Some (snapshot !! run_id).
Proof.
  intros Hc Ho Hr Hl.
  rewrite (first_pass request w w1 assistant_id key thread run_id Hc Ho).
  erewrite tick_completed; simpl; [|apply lookup_insert_eq|discriminate|done|done].
  split; [done|]. split; [apply delete_insert_eq|].
  eexists. split; [reflexivity|]. rewrite lookup_insert_eq. eauto.
Qed.

(** Once the thread is chosen, the message is posted to that thread and
    every later answer of the handler carries that thread. *)
Lemma start_uses_chosen_thread (request : QueryRequest) (w w0 : World)
    (assistant_id key thread : string) :
  assistants_map !! client_id request = Some (assistant_id, key) ->
  choose_thread gw {| api_key := key |} request w = (Ret thread, w0) ->
  (Call (MessagesCreate thread (query request)) (active_runs w0) :: history w0)
    `suffix_of` history (snd (start request w)) /\
  (forall t', task_thread (fst (start request w)) = Some t' -> t' = thread).
Proof.
  intros Hc Ht.
  set (c := {| api_key := key |}) in *.
  destruct (open_run gw c assistant_id request w) as [[[thread' run_id]|e] w1] eqn:Eo.
  - rewrite (first_pass request w w1 assistant_id key thread' run_id Hc Eo). fold c.
    unfold open_run, mbind, M_bind, bind in Eo. rewrite Ht in Eo.
    unfold call, ret, tick, log in Eo. simpl in Eo.
    repeat (case_match; simplify_eq/=).
    split; [|apply resume_thread].
    etrans; [|apply resume_history]. simpl.
    repeat first [ reflexivity | apply suffix_cons_r ].
  - rewrite (first_raise request w w1 assistant_id key e Hc Eo). simpl.
    split; [|done].
    unfold open_run, mbind, M_bind, bind in Eo. rewrite Ht in Eo.
    unfold call, ret, tick, log in Eo. simpl in Eo.
    repeat (case_match; simplify_eq/=).
    all: repeat first [ reflexivity | apply suffix_cons_r ].
Qed.

(** C5, as the code has it: when an activation of the query handler ends
    with an answer, be it a reply, a cancellation or the error response of
    the [except Exception] clause, the run it had registered (in an earlier
    activation, or in this same one) is not in the registry any more. *)
Theorem no_entry_leaked (c : Client) (thread run_id : string)
    (request : QueryRequest) (w : World) (resp : Response) :
  (fst (resume c thread run_id w) = Finished resp ->
   active_runs (snd (resume c thread run_id w)) !! run_id = None) /\
  (fst (start request w) = Finished resp ->
   registers run_id w (snd (start request w)) ->
   active_runs (snd (start request w)) !! run_id = None).
Proof.
  split.
  - intros Hf.
    destruct (resume_effect gw py_str c thread run_id w) as (_ & _ & He).
    destruct He as [(Ht & _)|[(_ & _ & Hdel & _)|(_ & Hnone & Hsame & _)]].
    + congruence.
    + rewrite Hdel. apply lookup_delete_eq.
    + by rewrite Hsame.
  - intros Hf Hreg. unfold registers in Hreg.
    destruct (start_effect request w) as (_ & _ & He).
    destruct He as [(_ & _ & Hsame & _)
                   |(c' & th & r & tm & a & _ & _ & Hcount & He)].
    + rewrite Hsame in Hreg. lia.
    + rewrite Hcount in Hreg. case_decide; [subst r|lia].
      destruct He as [(Ht & _)|(_ & Hdel & _)]; [congruence|].
      rewrite Hdel. apply lookup_delete_eq.
Qed.

(** C10: a request whose thread identifier is the empty string is handled
    exactly as a request without one: a thread is created, the message is
    posted to the created thread, and the handler answers with the created
    thread's identifier; a non-empty thread identifier is used as given,
    without creating a thread. *)
Theorem empty_thread_id_means_new_thread (cid q aid key new s : string) (w : World) :
  let request t := {| client_id := cid; query := q; req_thread_id := t |} in
  let c := {| api_key := key |} in
  assistants_map !! cid = Some (aid, key) ->
  threads_create gw c (clock w) = Ok new ->
  s <> "" ->
  start (request (Some "")) w = start (request None) w /\
  choose_thread gw c (request (Some "")) w
    = (Ret new, tick (log (Call ThreadsCreate (active_runs w)) w)) /\
  (Call (MessagesCreate new q) (active_runs w)
     :: Call ThreadsCreate (active_runs w) :: history w)
    `suffix_of` history (snd (start (request (Some "")) w)) /\
  (forall t', task_thread (fst (start (request (Some "")) w)) = Some t' -> t' = new) /\
  choose_thread gw c (request (Some s)) w = (Ret s, w) /\
  (Call (MessagesCreate s q) (active_runs w) :: history w)
    `suffix_of` history (snd (start (request (Some s)) w)) /\
  (forall t', task_thread (fst (start (request (Some s)) w)) = Some t' -> t' = s).
Proof.
  intros request c Hc Hnew Hs.
  assert (Hempty : choose_thread gw c (request (Some "")) w
                   = (Ret new, tick (log (Call ThreadsCreate (active_runs w)) w))).
  { unfold choose_thread, call. simpl. by rewrite Hnew. }
  assert (Hgiven : choose_thread gw c (request (Some s)) w = (Ret s, w)).
  { unfold choose_thread. simpl. by rewrite bool_decide_eq_false_2. }
  split; [reflexivity|]. split; [done|].
  destruct (start_uses_chosen_thread (request (Some "")) w _ aid key new Hc Hempty)
    as [H1 H2].
  destruct (start_uses_chosen_thread (request (Some s)) w _ aid key s Hc Hgiven)
    as [H3 H4].
  repeat split; assumption.
Qed.

End FirstPass.

Section Reachable.

Variable assistants_map : gmap string (string * string).
Variable gw : Gateway.
Variable py_str : Exc -> string.
Hypothesis gw_fresh : fresh_run_ids gw.

Local Abbreviation next := (step assistants_map gw py_str).
Local Abbreviation reach := (run_server assistants_map gw py_str).

Lemma consistent_boot : consistent gw boot.
Proof.
  split; simpl; try done; try lia.
  - intros run_id [v Hv]. by rewrite lookup_empty in Hv.
  - intros i run_id (c & th & H). by rewrite lookup_nil in H.
  - intros i j run_id (c & th & H). by rewrite lookup_nil in H.
Qed.

(** A stop request keeps the server consistent. *)
Lemma consistent_stop (s : System) (run_id : string) :
  consistent gw s -> consistent gw (next s (Stop run_id)).
Proof.
  intros [Ho Hp Hu Hi Hb H1 Hk]. unfold step.
  destruct (stop_keeps run_id (world s)) as (Hh & Hc & Hsome).
  destruct (stop_endpoint run_id (world s)) as [r w'] eqn:E. simpl in *.
  assert (He : forall r0, entries (active_runs w') r0 = entries (active_runs (world s)) r0).
  { intros r0. specialize (Hsome r0). unfold entries.
    destruct (active_runs w' !! r0), (active_runs (world s) !! r0); try done.
    - destruct Hsome as [Hs _]. destruct Hs; eauto; done.
    - destruct Hsome as [_ Hs]. destruct Hs; eauto; done. }
  split; simpl; rewrite ?Hh, ?Hc; try done.
  - intros r0 Hr0. apply Hsome in Hr0. apply Ho in Hr0. done.
  - intros i r0 Hr0. apply Hsome. eapply Hp. done.
  - intros r0. rewrite He. apply Hb.
Qed.

Lemma polls_answered (ts : list Task) (i j : nat) (resp : Response) (r : string) :
  polls (<[i := Finished resp]> ts) j r <-> i <> j /\ polls ts j r.
Proof.
  unfold polls. split.
  - intros (c & th & H). apply list_lookup_insert_Some in H.
    destruct H as [(_ & Heq & _)|(Hne & H)]; [discriminate|eauto].
  - intros (Hne & c & th & H). exists c, th. by rewrite list_lookup_insert_ne.
Qed.

Lemma polls_arrived (ts : list Task) (t : Task) (j : nat) (r : string) :
  polls (ts ++ [t]) j r <->
  polls ts j r \/ (j = length ts /\ exists c th, t = Polling c th r).
Proof.
  unfold polls. split.
  - intros (c & th & H). apply lookup_snoc_Some in H.
    destruct H as [(_ & H)|(-> & ->)]; eauto 6.
  - intros [(c & th & H)|(-> & c & th & ->)]; exists c, th; apply lookup_snoc_Some.
    + left. split; [by eapply lookup_lt_Some|done].
    + by right.
Qed.

(** The end of a sleep keeps the server consistent. *)
Lemma consistent_wake (s : System) (i : nat) :
  consistent gw s -> consistent gw (next s (Wake i)).
Proof.
  intros Hs. unfold step.
  destruct (tasks s !! i) as [[c th rid|resp]|] eqn:Ei; try done.
  destruct Hs as [Ho Hp Hu Hi Hb H1 Hk].
  assert (Hpoll : polls (tasks s) i rid) by (exists c, th; done).
  pose proof (Hp i rid Hpoll) as Hin.
  pose proof (resume_effect gw py_str c th rid (world s)) as He. cbv zeta in He.
  destruct (process_query_resume gw py_str c th rid (world s)) as [t w'] eqn:E.
  simpl in He. destruct He as (Hclock & Hreg & He).
  destruct He as [(-> & _ & Hsame & Hrm & Hke)
                 |[((resp & ->) & _ & Hdel & Hrm & Hke)|(_ & Hnone & _)]].
  - rewrite (list_insert_id _ _ _ Ei).
    split; simpl; rewrite ?Hsame, ?Hke; try done.
    + intros r Hr. rewrite Hreg in Hr. destruct (Hi r Hr) as (c0 & tm & th0 & a & Htm & Hc).
      exists c0, tm, th0, a. split; [lia|done].
    + intros r. rewrite Hreg, Hrm. apply Hb.
    + intros r. rewrite Hreg. apply H1.
  - split; simpl; rewrite ?Hke; try done.
    + intros r Hr. rewrite Hdel in Hr. apply lookup_delete_is_Some in Hr.
      destruct Hr as [Hne Hr]. destruct (Ho r Hr) as [j Hj].
      exists j. apply polls_answered. split; [|done].
      intros ->. apply Hne. destruct Hj as (? & ? & Hj). congruence.
    + intros j r Hj. apply polls_answered in Hj. destruct Hj as [Hne Hj].
      rewrite Hdel. apply lookup_delete_is_Some. split; [|by eapply Hp].
      intros ->. apply Hne. by eapply Hu.
    + intros j k r Hj Hk'. apply polls_answered in Hj, Hk'.
      destruct Hj as [_ Hj], Hk' as [_ Hk']. by eapply Hu.
    + intros r Hr. rewrite Hreg in Hr. destruct (Hi r Hr) as (c0 & tm & th0 & a & Htm & Hc).
      exists c0, tm, th0, a. split; [lia|done].
    + intros r. rewrite Hreg, Hrm, Hdel, Hb. unfold entries.
      case_decide as Hd.
      * subst r. rewrite lookup_delete_eq. destruct Hin as [v ->]. lia.
      * by rewrite lookup_delete_ne.
    + intros r. rewrite Hreg. apply H1.
  - destruct Hin as [v Hv]. congruence.
Qed.

(** A run identifier handed out now was never registered before. *)
Lemma issued_now_is_new (s : System) (c : Client) (tm : nat) (th a rid : string) :
  consistent gw s ->
  clock (world s) <= tm ->
  runs_create gw c tm th a = Ok rid ->
  count_registered rid (history (world s)) = 0 /\
  count_removed rid (history (world s)) = 0 /\
  active_runs (world s) !! rid = None.
Proof.
  intros [Ho Hp Hu Hi Hb H1 Hk] Htm Hc.
  assert (H0 : count_registered rid (history (world s)) = 0).
  { destruct (count_registered rid (history (world s))) as [|n] eqn:En; [done|].
    destruct (Hi rid) as (c0 & tm0 & th0 & a0 & Htm0 & Hc0); [lia|].
    pose proof (gw_fresh _ _ _ _ _ _ _ _ _ Hc Hc0). lia. }
  specialize (Hb rid). rewrite H0 in Hb.
  split; [done|]. split; [lia|].
  unfold entries in Hb. destruct (active_runs (world s) !! rid); [lia|done].
Qed.

(** The arrival of a query keeps the server consistent. *)
Lemma consistent_query (s : System) (request : QueryRequest) :
  consistent gw s -> consistent gw (next s (Query request)).
Proof.
  intros Hs. unfold step.
  pose proof (start_effect assistants_map gw py_str request (world s)) as He.
  cbv zeta in He.
  destruct (process_query assistants_map gw py_str request (world s)) as [t w'] eqn:E.
  simpl in He. destruct He as (Hclock & Hke & He).
  destruct He as [((resp & ->) & Hsame & Hreg & Hrm)
                 |(c & th & rid & tm & a & Htm & Hc & Hreg & He)].
  - destruct Hs as [Ho Hp Hu Hi Hb H1 Hk].
    split; simpl; rewrite ?Hsame, ?Hke; try done.
    + intros r Hr. destruct (Ho r Hr) as [j Hj]. exists j. apply polls_arrived. by left.
    + intros j r Hj. apply polls_arrived in Hj.
      destruct Hj as [Hj|(_ & ? & ? & ?)]; [by eapply Hp|done].
    + intros j k r Hj Hk'. apply polls_arrived in Hj, Hk'.
      destruct Hj as [Hj|(_ & ? & ? & ?)]; [|done].
      destruct Hk' as [Hk'|(_ & ? & ? & ?)]; [|done]. by eapply Hu.
    + intros r Hr. rewrite Hreg in Hr. destruct (Hi r Hr) as (c0 & tm0 & th0 & a0 & Htm0 & Hc0).
      exists c0, tm0, th0, a0. split; [lia|done].
    + intros r. rewrite Hreg, Hrm. apply Hb.
    + intros r. rewrite Hreg. apply H1.
  - destruct (issued_now_is_new s c tm th a rid Hs ltac:(lia) Hc) as (Hnew & Hnorm & Hnone).
    destruct Hs as [Ho Hp Hu Hi Hb H1 Hk].
    assert (Hissued : forall r, 0 < count_registered r (history w') ->
              exists c0 tm0 th0 a0, tm0 < clock w' /\ runs_create gw c0 tm0 th0 a0 = Ok r).
    { intros r Hr. rewrite Hreg in Hr. case_decide as Hd.
      - subst r. exists c, tm, th, a. split; [lia|done].
      - destruct (Hi r) as (c0 & tm0 & th0 & a0 & Htm0 & Hc0); [lia|].
        exists c0, tm0, th0, a0. split; [lia|done]. }
    assert (Honce : forall r, count_registered r (history w') <= 1).
    { intros r. rewrite Hreg. case_decide as Hd; [subst r; lia|]. specialize (H1 r). lia. }
    assert (Hfree : forall j, ~ polls (tasks s) j rid).
    { intros j Hj. destruct (Hp j rid Hj) as [v Hv]. congruence. }
    destruct He as [(-> & Hins & Hrm)|((resp & ->) & Hdel & Hrm)].
    + split; simpl; rewrite ?Hke; try done.
      * intros r Hr. rewrite Hins in Hr. apply lookup_insert_is_Some' in Hr.
        destruct Hr as [<-|Hr].
        -- exists (length (tasks s)). apply polls_arrived. right. eauto.
        -- destruct (Ho r Hr) as [j Hj]. exists j. apply polls_arrived. by left.
      * intros j r Hj. rewrite Hins. apply lookup_insert_is_Some'.
        apply polls_arrived in Hj.
        destruct Hj as [Hj|(_ & ? & ? & ?)]; [right; by eapply Hp|left; congruence].
      * intros j k r Hj Hk'. apply polls_arrived in Hj, Hk'.
        destruct Hj as [Hj|(-> & ? & ? & Hj)], Hk' as [Hk'|(-> & ? & ? & Hk')].
        -- by eapply Hu.
        -- simplify_eq. by destruct (Hfree j).
        -- simplify_eq. by destruct (Hfree k).
        -- done.
      * intros r. rewrite Hreg, Hrm, Hins. unfold entries.
        case_decide as Hd.
        -- subst r. rewrite lookup_insert_eq. lia.
        -- rewrite lookup_insert_ne by done. specialize (Hb r). unfold entries in Hb. lia.
    + assert (Hkeep : active_runs w' = active_runs (world s))
        by (rewrite Hdel; by apply delete_id).
      split; simpl; rewrite ?Hke, ?Hkeep; try done.
      * intros r Hr. destruct (Ho r Hr) as [j Hj]. exists j. apply polls_arrived. by left.
      * intros j r Hj. apply polls_arrived in Hj.
        destruct Hj as [Hj|(_ & ? & ? & ?)]; [by eapply Hp|done].
      * intros j k r Hj Hk'. apply polls_arrived in Hj, Hk'.
        destruct Hj as [Hj|(_ & ? & ? & ?)]; [|done].
        destruct Hk' as [Hk'|(_ & ? & ? & ?)]; [|done]. by eapply Hu.
      * intros r. rewrite Hreg, Hrm. specialize (Hb r). lia.
Qed.

Lemma consistent_step (s : System) (a : Action) :
  consistent gw s -> consistent gw (next s a).
Proof.
  destruct a; auto using consistent_query, consistent_wake, consistent_stop.
Qed.

Lemma consistent_reach (l : list Action) (s : System) :
  consistent gw s -> consistent gw (reach s l).
Proof.
  revert s. induction l as [|a l IH]; intros s Hs; simpl; [done|].
  apply IH. by apply consistent_step.
Qed.

(** A pass ends the handler when the entry is flagged, when the poll reports
    "completed" or "failed", and when the poll fails. *)
Lemma resume_ends (c : Client) (thread run_id : string) (w : World) (info : RunInfo) :
  active_runs w !! run_id = Some info ->
  status info = "cancelled" \/
  runs_retrieve gw c (clock w) thread run_id = Ok "completed" \/
  runs_retrieve gw c (clock w) thread run_id = Ok "failed" \/
  (exists msg, runs_retrieve gw c (clock w) thread run_id = Fail msg) ->
  exists resp, fst (process_query_resume gw py_str c thread run_id w) = Finished resp.
Proof.
  intros Hin Hend. py_unfold.
  destruct (runs_retrieve gw c (clock w) thread run_id) as [st|msg] eqn:Hr; simpl;
    rewrite Hin; simpl.
  all: repeat (first [ rewrite Hin | rewrite lookup_delete_eq | case_decide | case_match ];
               simplify_eq/=).
  all: eauto.
  all: destruct Hend as [?|[?|[?|[? ?]]]]; congruence.
Qed.

(** C2, as the code has it: in every state the server reaches by query
    arrivals, wake-ups and stop requests, a run identifier is in the registry
    exactly when a handler is suspended in the polling loop of that run
    (whatever the status of the entry), and at most one handler is; every run
    identifier was inserted at most once, and was deleted once if it is no
    longer in the registry and never if it still is; the entry of a suspended
    handler is deleted, for the first and only time, in the pass in which the
    flag is seen, or the poll reports "completed" or "failed", or the poll
    fails, and that pass ends the handler; a stop request adds no deletion;
    the registry holds at most one entry per run identifier. *)
Theorem registry_invariant (l : list Action) :
  let s := reach boot l in
  let w := world s in
  (forall run_id, is_Some (active_runs w !! run_id)
                  <-> exists i, polls (tasks s) i run_id) /\
  (forall i j run_id, polls (tasks s) i run_id -> polls (tasks s) j run_id -> i = j) /\
  (forall run_id, count_registered run_id (history w) <= 1) /\
  (forall run_id, count_registered run_id (history w)
                  = count_removed run_id (history w) + entries (active_runs w) run_id) /\
  (forall run_id, entries (active_runs w) run_id <= 1) /\
  (forall run_id w0, history (snd (stop_endpoint run_id w0)) = history w0) /\
  (forall i c thread run_id, tasks s !! i = Some (Polling c thread run_id) ->
     exists info,
       active_runs w !! run_id = Some info /\
       count_removed run_id (history w) = 0 /\
       (status info = "cancelled" \/
        runs_retrieve gw c (clock w) thread run_id = Ok "completed" \/
        runs_retrieve gw c (clock w) thread run_id = Ok "failed" \/
        (exists msg, runs_retrieve gw c (clock w) thread run_id = Fail msg) ->
        let r := process_query_resume gw py_str c thread run_id w in
        (exists resp, fst r = Finished resp) /\
        active_runs (snd r) = delete run_id (active_runs w) /\
        count_removed run_id (history (snd r)) = 1)).
Proof.
  intros s w.
  destruct (consistent_reach l boot consistent_boot) as [Ho Hp Hu Hi Hb H1 Hk].
  fold s in Ho, Hp, Hu, Hi, Hb, H1, Hk. fold w in Ho, Hp, Hi, Hb, H1, Hk.
  split; [intros r; split; [apply Ho|intros [i Hi']; by eapply Hp]|].
  split; [done|]. split; [done|]. split; [done|].
  split; [intros r; unfold entries; destruct (active_runs w !! r); lia|].
  split; [intros r w0; apply stop_keeps|].
  intros i c thread run_id Ht.
  destruct (Hp i run_id) as [info Hin]; [by exists c, thread|].
  exists info. split; [done|].
  assert (Hzero : count_removed run_id (history w) = 0).
  { specialize (Hb run_id). specialize (H1 run_id).
    unfold entries in Hb. rewrite Hin in Hb. lia. }
  split; [done|].
  intros Hend. cbv zeta.
  destruct (resume_ends c thread run_id w info Hin Hend) as [resp Hresp].
  split; [eauto|].
  destruct (resume_effect gw py_str c thread run_id w) as (_ & _ & He).
  destruct He as [(Hpoll & _)|[(_ & _ & Hdel & Hrm & _)|(_ & Hnone & _)]].
  - congruence.
  - split; [done|]. rewrite Hrm, Hzero. by rewrite decide_True.
  - congruence.
Qed.

(** C9: in every state the server reaches, the entry of each handler
    suspended in the polling loop is in the registry, so the read of
    [active_runs[run.id]] in its next pass succeeds; no [KeyError] has ever
    reached the [except] clause; and a stop request never removes an
    entry. *)
Theorem own_entry_always_present (l : list Action) :
  let s := reach boot l in
  (forall i c th rid, tasks s !! i = Some (Polling c th rid) ->
     is_Some (active_runs (world s) !! rid) /\
     forall st w1,
       call (RunsRetrieve th rid) (fun t => runs_retrieve gw c t th rid) (world s)
         = (Ret st, w1) ->
       exists info, runs_getitem rid w1 = (Ret info, w1)) /\
  key_errors (history (world s)) = 0 /\
  (forall rid w r, is_Some (active_runs (snd (stop_endpoint rid w)) !! r)
                   <-> is_Some (active_runs w !! r)).
Proof.
  intros s.
  destruct (consistent_reach l boot consistent_boot) as [Ho Hp Hu Hi Hb H1 Hk].
  fold s in Ho, Hp, Hu, Hi, Hb, H1, Hk.
  split; [|split; [done|intros rid w r; apply stop_keeps]].
  intros i c th rid Ht.
  assert (Hin : is_Some (active_runs (world s) !! rid)) by (eapply Hp; eexists _, _; done).
  split; [done|].
  intros st w1 Hcall. destruct Hin as [info Hin]. exists info.
  unfold call in Hcall.
  destruct (runs_retrieve gw c (clock (world s)) th rid); simplify_eq.
  unfold runs_getitem. simpl. by rewrite Hin.
Qed.

End Reachable.

(** * Further properties of the query handler *)

Section Passes.

Variable gw : Gateway.
Variable py_str : Exc -> string.

Local Abbreviation resume := (process_query_resume gw py_str).

Ltac by_cases c thread run_id w Hin :=
  py_unfold;
  destruct (runs_retrieve gw c (clock w) thread run_id) as [st|msg]; simpl;
  destruct (active_runs w !! run_id) as [info|] eqn:Hin; simpl;
  repeat (first [ rewrite Hin | rewrite lookup_delete_eq | case_decide | case_match ];
          simplify_eq/=).

(** X1: when the status poll itself fails, the pass ends at once: the
    handler deletes its entry and answers 500 with the string of the error.
    This holds whatever the status of the entry, so a cancellation that was
    requested is not sent to the service in that case. *)
Theorem poll_failure_answers_500 (c : Client) (thread run_id : string) (w : World)
    (info : RunInfo) (msg : string) :
  active_runs w !! run_id = Some info ->
  runs_retrieve gw c (clock w) thread run_id = Fail msg ->
  resume c thread run_id w =
    (Finished (HTTPError 500 (py_str (APIError msg))),
     {| active_runs := delete run_id (active_runs w);
        clock := S (clock w);
        history := Removed run_id
                   :: Caught (APIError msg)
                   :: Call (RunsRetrieve thread run_id) (active_runs w)
                   :: history w |}).
Proof. intros Hin Hr. py_run. reflexivity. Qed.

(** X2: when the poll reports "completed" but the listing holds no message,
    or the latest message has no content, or its first content block is not
    text, line 102 raises; the handler deletes the entry and answers 500 with
    the string of the [IndexError] or [AttributeError]. *)
Theorem completed_without_text_answers_500 (c : Client) (thread run_id : string)
    (w : World) (info : RunInfo) (data : list Message) :
  active_runs w !! run_id = Some info ->
  status info <> "cancelled" ->
  runs_retrieve gw c (clock w) thread run_id = Ok "completed" ->
  messages_list gw c (S (clock w)) thread = Ok data ->
  (data = [] \/
   exists m older, data = m :: older /\
     (content m = [] \/ exists blocks, content m = ImageBlock :: blocks)) ->
  exists e, (e = IndexError \/ e = AttributeError) /\
    fst (resume c thread run_id w) = Finished (HTTPError 500 (py_str e)) /\
    active_runs (snd (resume c thread run_id w)) = delete run_id (active_runs w) /\
    history (snd (resume c thread run_id w))
      = Removed run_id :: Caught e
        :: Call (MessagesList thread) (active_runs w)
        :: Call (RunsRetrieve thread run_id) (active_runs w)
        :: history w.
Proof.
  intros Hin Hst Hr Hl Hdata.
  destruct Hdata as [->|(m & older & -> & [Hm|(blocks & Hm)])].
  - exists IndexError. py_run. eauto.
  - exists IndexError. py_run. eauto.
  - exists AttributeError. py_run. eauto.
Qed.

(** X3: when the entry is flagged and the service refuses the cancellation,
    the handler still deletes the entry, and answers 500 with the string of
    the service's error instead of the cancellation. *)
Theorem refused_cancellation_answers_500 (c : Client) (thread run_id : string)
    (w : World) (info : RunInfo) (st msg : string) :
  active_runs w !! run_id = Some info ->
  status info = "cancelled" ->
  runs_retrieve gw c (clock w) thread run_id = Ok st ->
  runs_cancel gw c (S (clock w)) thread run_id = Fail msg ->
  fst (resume c thread run_id w) = Finished (HTTPError 500 (py_str (APIError msg))) /\
  fst (resume c thread run_id w) <> Finished (CancelledResponse thread) /\
  active_runs (snd (resume c thread run_id w)) !! run_id = None.
Proof.
  intros Hin Hst Hr Hc.
  rewrite (tick_cancelled_refused gw py_str _ _ _ _ _ _ _ Hin Hst Hr Hc). simpl.
  split; [done|]. split; [done|]. apply lookup_delete_eq.
Qed.

(** X4: a reply is sent only for the handler's own thread and run, and only
    when the entry was present and not flagged, the poll of that pass
    reported "completed", and the first content block of the first listed
    message was the text of the reply. *)
Theorem reply_only_when_completed (c : Client) (thread run_id : string) (w : World)
    (text thread' run' : string) :
  fst (resume c thread run_id w) = Finished (Answer text thread' run') ->
  thread' = thread /\ run' = run_id /\
  (exists info, active_runs w !! run_id = Some info /\ status info <> "cancelled") /\
  runs_retrieve gw c (clock w) thread run_id = Ok "completed" /\
  (exists blocks older,
     messages_list gw c (S (clock w)) thread
       = Ok ({| content := TextBlock text :: blocks |} :: older)).
Proof.
  intros Hanswer. by_cases c thread run_id w Hin.
  all: try match goal with m : Message |- _ => destruct m; simpl in *; subst end.
  all: simplify_eq; repeat split; eauto.
Qed.

(** X5: the cancellation answer is sent only when the entry was flagged
    "cancelled", the poll of that pass returned, and the service accepted the
    cancellation; it carries the handler's thread. *)
Theorem cancelled_only_when_flagged (c : Client) (thread run_id : string) (w : World)
    (thread' : string) :
  fst (resume c thread run_id w) = Finished (CancelledResponse thread') ->
  thread' = thread /\
  (exists info, active_runs w !! run_id = Some info /\ status info = "cancelled") /\
  (exists st, runs_retrieve gw c (clock w) thread run_id = Ok st) /\
  runs_cancel gw c (S (clock w)) thread run_id = Ok tt.
Proof.
  intros Hanswer. by_cases c thread run_id w Hin.
  all: try match goal with u : unit |- _ => destruct u end.
  all: simplify_eq; repeat split; eauto.
Qed.

Lemma resume_clock (c : Client) (thread run_id : string) (w : World) :
  S (clock w) <= clock (snd (resume c thread run_id w)) <= S (S (clock w)).
Proof.
  by_cases c thread run_id w Hin.
  all: lia.
Qed.

(** X6: a pass of the loop sends at least one and at most two calls to the
    service, and exactly one when it ends with the handler asleep again. *)
Theorem calls_per_pass (c : Client) (thread run_id : string) (w : World) :
  S (clock w) <= clock (snd (resume c thread run_id w)) <= S (S (clock w)) /\
  (forall c' thread' run', fst (resume c thread run_id w) = Polling c' thread' run' ->
     clock (snd (resume c thread run_id w)) = S (clock w)).
Proof.
  split; [apply resume_clock|].
  intros c' thread' run' Hp. by_cases c thread run_id w Hin.
  all: simplify_eq; done.
Qed.

(** A pass looks at the registry only under its own run identifier. *)
Lemma resume_frame (c : Client) (thread run_id : string) (w w1 : World) :
  clock w1 = clock w ->
  active_runs w1 !! run_id = active_runs w !! run_id ->
  fst (resume c thread run_id w1) = fst (resume c thread run_id w) /\
  clock (snd (resume c thread run_id w1)) = clock (snd (resume c thread run_id w)) /\
  active_runs (snd (resume c thread run_id w1)) !! run_id
    = active_runs (snd (resume c thread run_id w)) !! run_id.
Proof.
  destruct w as [r k h], w1 as [r1 k1 h1]. simpl. intros -> Hl.
  destruct (r !! run_id) as [info|] eqn:Hin.
  all: py_unfold.
  all: destruct (runs_retrieve gw c k thread run_id) as [st|msg]; simpl.
  all: repeat (first [ rewrite Hl | rewrite Hin | rewrite lookup_delete_eq
                     | case_decide | case_match ];
               simplify_eq/=).
  all: rewrite ?lookup_delete_eq, ?Hl, ?Hin; try done.
  all: try match goal with
           | H : bool_decide _ = _ |- _ =>
               rewrite ?Hl, ?Hin, ?lookup_delete_eq in H; by vm_compute in H
           end.
Qed.

(** X7: a stop request for another run changes nothing for this handler:
    its next pass gives the same answer, sends as many calls, and leaves its
    own entry as it would have without that request. *)
Theorem stop_of_other_run_is_invisible (c : Client) (thread run_id other : string)
    (w : World) :
  other <> run_id ->
  let w1 := snd (stop_endpoint other w) in
  fst (resume c thread run_id w1) = fst (resume c thread run_id w) /\
  clock (snd (resume c thread run_id w1)) = clock (snd (resume c thread run_id w)) /\
  active_runs (snd (resume c thread run_id w1)) !! run_id
    = active_runs (snd (resume c thread run_id w)) !! run_id.
Proof.
  intros Hne w1. apply resume_frame; subst w1.
  - apply stop_keeps.
  - destruct (active_runs w !! other) as [info|] eqn:Ho.
    + rewrite (stop_registered _ _ _ Ho). simpl. by rewrite lookup_insert_ne.
    + by rewrite (stop_unregistered _ _ Ho).
Qed.

(** The pass in which the poll reports a status that is neither "completed"
    nor "failed", the entry not being flagged: the handler goes back to
    sleep. *)
Lemma tick_pending (c : Client) (thread run_id : string) (w : World)
    (info : RunInfo) (st : string) :
  active_runs w !! run_id = Some info ->
  status info <> "cancelled" ->
  runs_retrieve gw c (clock w) thread run_id = Ok st ->
  st <> "completed" -> st <> "failed" ->
  resume c thread run_id w =
    (Polling c thread run_id,
     {| active_runs := active_runs w;
        clock := S (clock w);
        history := Call (RunsRetrieve thread run_id) (active_runs w) :: history w |}).
Proof. intros Hin Hst Hr H1 H2. py_run. Qed.

End Passes.

(** X8: a stop request for a registered run rewrites the status of that one
    entry and nothing else: the entry keeps its thread and its client, every
    other entry, the clock and the history are as before. *)
Theorem stop_only_sets_flag (run_id : string) (w : World) (info : RunInfo) :
  active_runs w !! run_id = Some info ->
  let w' := snd (stop_endpoint run_id w) in
  active_runs w' !! run_id
    = Some {| thread_id := thread_id info; client := client info; status := "cancelled" |} /\
  (forall r, r <> run_id -> active_runs w' !! r = active_runs w !! r) /\
  clock w' = clock w /\
  history w' = history w.
Proof.
  intros Hin. simpl. rewrite (stop_registered _ _ _ Hin). simpl.
  split; [apply lookup_insert_eq|]. split; [|done].
  intros r Hr. by rewrite lookup_insert_ne.
Qed.

Section Sessions.

Variable assistants_map : gmap string (string * string).
Variable gw : Gateway.
Variable py_str : Exc -> string.

Local Abbreviation start := (process_query assistants_map gw py_str).
Local Abbreviation resume := (process_query_resume gw py_str).
Local Abbreviation next := (step assistants_map gw py_str).
Local Abbreviation reach := (run_server assistants_map gw py_str).

(** X9: when creating the thread, posting the message or creating the run
    fails, the query is answered 500 with the string of the service's error;
    nothing was put into the registry and nothing is taken out of it. *)
Theorem failure_before_run_answers_500 (request : QueryRequest) (w w1 : World)
    (assistant_id key : string) (e : Exc) :
  assistants_map !! client_id request = Some (assistant_id, key) ->
  open_run gw {| api_key := key |} assistant_id request w = (Raise e, w1) ->
  fst (start request w) = Finished (HTTPError 500 (py_str e)) /\
  (exists msg, e = APIError msg) /\
  active_runs (snd (start request w)) = active_runs w /\
  (forall r, count_registered r (history (snd (start request w)))
             = count_registered r (history w)) /\
  (forall r, count_removed r (history (snd (start request w)))
             = count_removed r (history w)).
Proof.
  intros Hc Ho.
  pose proof (open_run_effect gw {| api_key := key |} assistant_id request w) as He.
  rewrite Ho in He. simpl in He.
  destruct He as (Hr & _ & Hreg & Hrem & _ & Hexc & _).
  rewrite (first_raise assistants_map gw py_str request w w1 assistant_id key e Hc Ho).
  simpl. split; [done|]. split; [eauto|]. done.
Qed.

(** X10: from its arrival to its first suspension or answer, a query sends
    at most five calls to the service, and none when the client is unknown. *)
Theorem calls_of_first_activation (request : QueryRequest) (w : World) :
  clock w <= clock (snd (start request w)) <= 5 + clock w /\
  (assistants_map !! client_id request = None ->
   start request w = (Finished (HTTPError 404 "Client ID not found"), w)).
Proof.
  split; [|intros Hc; unfold process_query; by rewrite Hc].
  destruct (assistants_map !! client_id request) as [[assistant_id key]|] eqn:Hc.
  2:{ unfold process_query. rewrite Hc. simpl. lia. }
  set (c := {| api_key := key |}).
  assert (Hopen : clock w <= clock (snd (open_run gw c assistant_id request w)) <= 3 + clock w).
  { py_unfold. destruct (not_thread_id (req_thread_id request)); simpl.
    all: repeat (case_match; simplify_eq/=).
    all: lia. }
  destruct (open_run gw c assistant_id request w) as [[[thread run_id]|e] w1] eqn:Eo;
    simpl in Hopen.
  - rewrite (first_pass assistants_map gw py_str request w w1 assistant_id key
               thread run_id Hc Eo).
    fold c.
    pose proof (resume_clock gw py_str c thread run_id
                  (snd (runs_setitem run_id (new_entry c thread) w1))) as Hp.
    simpl in Hp. simpl. lia.
  - rewrite (first_raise assistants_map gw py_str request w w1 assistant_id key e Hc Eo).
    simpl. lia.
Qed.

(** X11: the loop has no exit of its own for a status other than "completed"
    and "failed": as long as the service reports such a status (for instance
    "expired" or "cancelled") and no stop request comes, every wake-up of the
    handler leaves it polling, with its entry in the registry, after one more
    call to the service. *)
Theorem pending_run_polls_forever (n : nat) (s : System) (i : nat) (c : Client)
    (thread run_id : string) (info : RunInfo) :
  tasks s !! i = Some (Polling c thread run_id) ->
  active_runs (world s) !! run_id = Some info ->
  status info <> "cancelled" ->
  (forall t, clock (world s) <= t ->
     exists st, runs_retrieve gw c t thread run_id = Ok st /\
                st <> "completed" /\ st <> "failed") ->
  let s' := reach s (replicate n (Wake i)) in
  tasks s' = tasks s /\
  active_runs (world s') = active_runs (world s) /\
  clock (world s') = n + clock (world s).
Proof.
  revert s. induction n as [|n IH]; intros s Ht Hin Hst Hpoll; simpl; [done|].
  destruct (Hpoll (clock (world s))) as (st & Hr & H1 & H2); [lia|].
  rewrite Ht.
  rewrite (tick_pending gw py_str c thread run_id (world s) info st Hin Hst Hr H1 H2).
  rewrite (list_insert_id _ _ _ Ht).
  match goal with
  | |- context [run_server _ _ _ ?s1 _] => specialize (IH s1)
  end.
  simpl in IH. destruct IH as (IH1 & IH2 & IH3); try done.
  - intros t Hle. apply Hpoll. lia.
  - split; [done|]. split; [done|]. rewrite IH3. lia.
Qed.

Hypothesis gw_fresh : fresh_run_ids gw.

(** Once a registered run is flagged, a step of the server leaves its entry
    flagged or removes it. *)
Lemma flag_kept_by_step (run_id : string) (s : System) (a : Action) :
  consistent gw s ->
  0 < count_registered run_id (history (world s)) ->
  active_runs (world s) !! run_id = None \/
    status <$> active_runs (world s) !! run_id = Some "cancelled" ->
  0 < count_registered run_id (history (world (next s a))) /\
  (active_runs (world (next s a)) !! run_id = None \/
   status <$> active_runs (world (next s a)) !! run_id = Some "cancelled").
Proof.
  intros Hs Hreg Hflag. destruct a as [request|i|other]; unfold step.
  - pose proof (start_effect assistants_map gw py_str request (world s)) as He.
    cbv zeta in He.
    destruct (process_query assistants_map gw py_str request (world s)) as [t w'] eqn:E.
    simpl in He. simpl. destruct He as (Hclock & _ & He).
    destruct He as [(_ & Hsame & Hr & _)|(c & th & rid & tm & a & Htm & Hc & Hr & He)].
    + rewrite Hr, Hsame. done.
    + destruct (issued_now_is_new gw gw_fresh s c tm th a rid Hs
                  ltac:(lia) Hc) as (Hnew & _ & _).
      assert (Hne : rid <> run_id) by (intros ->; lia).
      rewrite Hr. split; [lia|].
      destruct He as [(_ & Hins & _)|(_ & Hdel & _)].
      * rewrite Hins. by rewrite lookup_insert_ne.
      * rewrite Hdel. by rewrite lookup_delete_ne.
  - destruct (tasks s !! i) as [[c th rid|resp]|] eqn:Ei; try done.
    pose proof (resume_effect gw py_str c th rid (world s)) as He. cbv zeta in He.
    destruct (process_query_resume gw py_str c th rid (world s)) as [t w'] eqn:E.
    simpl in He. simpl. destruct He as (_ & Hr & He). rewrite Hr. split; [done|].
    destruct He as [(_ & _ & Hsame & _)|[(_ & _ & Hdel & _)|(_ & _ & Hsame & _)]].
    + by rewrite Hsame.
    + rewrite Hdel. destruct (decide (rid = run_id)) as [->|Hne].
      * left. apply lookup_delete_eq.
      * by rewrite lookup_delete_ne.
    + by rewrite Hsame.
  - destruct (stop_keeps other (world s)) as (Hh & _ & _).
    destruct (stop_endpoint other (world s)) as [r w'] eqn:E. simpl in *.
    rewrite Hh. split; [done|].
    assert (Hw : w' = snd (stop_endpoint other (world s))) by (by rewrite E).
    destruct (active_runs (world s) !! other) as [info|] eqn:Ho.
    + rewrite (stop_registered _ _ _ Ho) in Hw. subst w'. simpl.
      destruct (decide (other = run_id)) as [->|Hne].
      * right. by rewrite lookup_insert_eq.
      * by rewrite lookup_insert_ne.
    + rewrite (stop_unregistered _ _ Ho) in Hw. by subst w'.
Qed.

(** X12: a stop request is never undone. Once the entry of a run is flagged
    "cancelled" in a state the server has reached, then whatever happens
    next (queries, wake-ups, stop requests) the entry is either still
    flagged or gone; it is never set back to "running", the service not
    reusing run identifiers. *)
Theorem flag_is_never_reset (l l' : list Action) (run_id : string) :
  let s := reach boot l in
  status <$> active_runs (world s) !! run_id = Some "cancelled" ->
  let s' := reach s l' in
  active_runs (world s') !! run_id = None \/
  status <$> active_runs (world s') !! run_id = Some "cancelled".
Proof.
  intros s Hflag.
  assert (Hs : consistent gw s)
    by (apply consistent_reach; [done|apply consistent_boot]).
  assert (Hreg : 0 < count_registered run_id (history (world s))).
  { rewrite (cons_balance _ _ Hs run_id). unfold entries.
    destruct (active_runs (world s) !! run_id); [lia|done]. }
  assert (Hstart : active_runs (world s) !! run_id = None \/
            status <$> active_runs (world s) !! run_id = Some "cancelled") by (by right).
  clearbody s. clear Hflag.
  revert s Hs Hreg Hstart. induction l' as [|a l' IH]; intros s Hs Hreg Hstart; simpl.
  - done.
  - destruct (flag_kept_by_step run_id s a Hs Hreg Hstart) as [Hreg' Hflag'].
    apply IH; [by apply consistent_step|done|done].
Qed.

End Sessions.

(** * The script endpoint *)

Section ScriptEndpoint.

Variable assistants_map : gmap string (string * string).
Variable py_int16 : string -> option Z.
Variables text_open text_color text_light text_rest : string.

Local Abbreviation script :=
  (generate_script assistants_map py_int16 text_open text_color text_light text_rest).
Local Abbreviation widget :=
  (generate_widget_script text_open text_color text_light text_rest).
Local Abbreviation answer :=
  (script_endpoint assistants_map py_int16 text_open text_color text_light text_rest).

Lemma substring_past_end (s : string) (n m : nat) :
  String.length s <= n -> String.substring n m s = "".
Proof.
  revert n. induction s as [|a s IH]; intros n Hn; simpl in *.
  - by destruct n, m.
  - destruct n as [|n]; [lia|]. apply IH. lia.
Qed.

Lemma substring_of_prefix (p rest : string) (n m : nat) :
  n + m <= String.length p ->
  String.substring n m (p +:+ rest) = String.substring n m p.
Proof.
  revert n m. induction p as [|a p IH]; intros n m Hn; simpl in *.
  - assert (n = 0) by lia. assert (m = 0) by lia. subst. by destruct rest.
  - destruct n as [|n].
    + destruct m as [|m]; [done|]. f_equal. apply (IH 0 m). lia.
    + apply IH. lia.
Qed.

(** The three components that line 134 yields. *)
Lemma parse_rgb_three (colour : string) (rgb : list Z) :
  parse_rgb py_int16 colour = Some rgb -> exists r g b, rgb = [r; g; b].
Proof.
  unfold parse_rgb. intros H.
  destruct (py_int16 (String.substring 1 2 colour)) as [r|]; [|done].
  destruct (py_int16 (String.substring 3 2 colour)) as [g|]; [|done].
  destruct (py_int16 (String.substring 5 2 colour)) as [b|]; [|done].
  simpl in H. simplify_eq. eauto.
Qed.

(** X15: a colour that does not start with '#' is not checked at all: for a
    known client the script is returned with that text copied between the
    static parts, and with the built-in light variant. *)
Theorem colour_without_hash_is_copied (client_id colour : string) :
  is_Some (assistants_map !! client_id) ->
  starts_with_hash colour = false ->
  answer client_id (Some colour)
    = ScriptBody (text_open +:+ client_id +:+ text_color +:+ colour
                  +:+ text_light +:+ "rgba(184, 148, 247, 0.1)" +:+ text_rest).
Proof.
  intros [v Hv] Hh. unfold script_endpoint, generate_script. simpl.
  by rewrite Hv, Hh.
Qed.

(** X16: a colour that starts with '#' and has at most five characters (the
    short form "#fff", say) makes the endpoint fail with the plain 500 of an
    uncaught exception: the slice for the third component is empty, and [int]
    rejects the empty string. *)
Theorem short_hash_colour_answers_500 (client_id colour : string) :
  is_Some (assistants_map !! client_id) ->
  starts_with_hash colour = true ->
  String.length colour <= 5 ->
  py_int16 "" = None ->
  script client_id (Some colour) = inl ValueError /\
  answer client_id (Some colour) = ScriptError 500 "Internal Server Error".
Proof.
  intros [v Hv] Hh Hlen Hint.
  assert (Hp : parse_rgb py_int16 colour = None).
  { unfold parse_rgb. rewrite (substring_past_end colour 5 2 Hlen), Hint.
    destruct (py_int16 (String.substring 1 2 colour)); [|done].
    by destruct (py_int16 (String.substring 3 2 colour)). }
  unfold script_endpoint, generate_script. simpl. by rewrite Hv, Hh, Hp.
Qed.

(** X17: only the first seven characters of the colour are read for the
    components; what follows them is not looked at, yet the whole text is
    copied into the script. *)
Theorem characters_after_the_seventh_are_not_read (client_id p rest : string) :
  is_Some (assistants_map !! client_id) ->
  String.length p = 7 ->
  parse_rgb py_int16 (p +:+ rest) = parse_rgb py_int16 p /\
  script client_id (Some (p +:+ rest))
    = if starts_with_hash p then
        match parse_rgb py_int16 p with
        | None => inl ValueError
        | Some rgb => widget client_id (p +:+ rest) (Some rgb)
        end
      else widget client_id (p +:+ rest) None.
Proof.
  intros [v Hv] Hlen.
  assert (Hp : parse_rgb py_int16 (p +:+ rest) = parse_rgb py_int16 p).
  { unfold parse_rgb. by rewrite !substring_of_prefix by lia. }
  split; [done|].
  unfold generate_script. simpl. rewrite Hv, Hp.
  destruct p as [|a p]; [done|]. reflexivity.
Qed.

(** X18: the script endpoint fails in two ways only: 404 for an unknown
    client, and a [ValueError] when the client is known, the colour starts
    with '#' and one of its three slices is rejected by [int]. The indexing
    of line 141 never fails there. *)
Theorem script_errors (client_id : string) (colour : option string) (e : ScriptExc) :
  script client_id colour = inl e ->
  (e = Plain (HTTPException 404 "Client ID not found") /\
   assistants_map !! client_id = None) \/
  (e = ValueError /\
   is_Some (assistants_map !! client_id) /\
   starts_with_hash (default "#b894f7" colour) = true /\
   parse_rgb py_int16 (default "#b894f7" colour) = None).
Proof.
  unfold generate_script. simpl.
  destruct (assistants_map !! client_id) as [v|] eqn:Hv; [|intros; simplify_eq; by left].
  destruct (starts_with_hash (default "#b894f7" colour)) eqn:Hh.
  - destruct (parse_rgb py_int16 (default "#b894f7" colour)) as [rgb|] eqn:Hp.
    + destruct (parse_rgb_three _ _ Hp) as (r & g & b & ->). done.
    + intros. simplify_eq. right. eauto.
  - done.
Qed.

(** X19: [generate_widget_script] takes the empty tuple for no colour at
    all, fails with [IndexError] on a tuple of one or two components, and
    of a longer tuple uses the first three components only. *)
Theorem widget_components (client_id colour : string) (t : list Z) :
  let render := generate_widget_script text_open text_color text_light text_rest
                  client_id colour in
  (t = [] -> render (Some t) = render None) /\
  (1 <= length t <= 2 -> render (Some t) = inl (Plain IndexError)) /\
  (3 <= length t ->
   render (Some t) = render (Some (take 3 t)) /\
   exists body, render (Some t) = inr body).
Proof.
  split; [by intros ->|]. split.
  - intros Hlen. destruct t as [|r [|g [|b t]]]; simpl in Hlen; try lia; done.
  - intros Hlen. destruct t as [|r [|g [|b t]]]; simpl in Hlen; try lia.
    split; [done|]. unfold generate_widget_script. simpl. eauto.
Qed.

Lemma hex_digit_range (a : ascii) (x : Z) :
  hex_digit a = Some x -> (0 <= x <= 15)%Z.
Proof.
  unfold hex_digit. intros H.
  repeat case_bool_decide; simplify_eq; lia.
Qed.

(** X20: for a known client and a colour made of '#' and six hexadecimal
    digits, [int] reading two hexadecimal digits as usual, the script is
    returned with the light variant "rgba(R, G, B, 0.1)", each component
    being the value of its two digits, between 0 and 255, written in
    decimal. *)
Theorem hex_colour_gives_rgba (client_id : string) (a1 a2 a3 a4 a5 a6 : ascii)
    (x1 x2 x3 x4 x5 x6 : Z) :
  (forall a b x y, hex_digit a = Some x -> hex_digit b = Some y ->
     py_int16 (String a (String b "")) = Some (16 * x + y)%Z) ->
  is_Some (assistants_map !! client_id) ->
  hex_digit a1 = Some x1 -> hex_digit a2 = Some x2 ->
  hex_digit a3 = Some x3 -> hex_digit a4 = Some x4 ->
  hex_digit a5 = Some x5 -> hex_digit a6 = Some x6 ->
  let colour := String "#" (String a1 (String a2 (String a3
                  (String a4 (String a5 (String a6 "")))))) in
  let r := (16 * x1 + x2)%Z in
  let g := (16 * x3 + x4)%Z in
  let b := (16 * x5 + x6)%Z in
  answer client_id (Some colour)
    = ScriptBody (text_open +:+ client_id +:+ text_color +:+ colour +:+ text_light
                  +:+ ("rgba(" +:+ pretty r +:+ ", " +:+ pretty g +:+ ", "
                       +:+ pretty b +:+ ", 0.1)")
                  +:+ text_rest) /\
  (0 <= r <= 255)%Z /\ (0 <= g <= 255)%Z /\ (0 <= b <= 255)%Z.
Proof.
  intros Hint [v Hv] H1 H2 H3 H4 H5 H6 colour r g b.
  pose proof (hex_digit_range _ _ H1). pose proof (hex_digit_range _ _ H2).
  pose proof (hex_digit_range _ _ H3). pose proof (hex_digit_range _ _ H4).
  pose proof (hex_digit_range _ _ H5). pose proof (hex_digit_range _ _ H6).
  split; [|subst r g b; lia].
  unfold script_endpoint, generate_script. simpl. rewrite Hv.
  unfold parse_rgb. simpl.
  rewrite (Hint _ _ _ _ H1 H2), (Hint _ _ _ _ H3 H4), (Hint _ _ _ _ H5 H6).
  reflexivity.
Qed.

End ScriptEndpoint.

(** * A handler cancelled in its sleep *)

(** For an exception that derives from [Exception] the clause deletes the
    entry of the run; [asyncio.CancelledError] passes the clause and the
    process state stays as it was, entry included. *)
Lemma except_Exception_cases (py_str : Exc -> string) (run_id : string) (w : World) :
  (forall e, active_runs (snd (except_Exception py_str (Some run_id) (Ordinary e) w))
               !! run_id = None) /\
  process_query_cancelled py_str run_id w = (inr CancelledError, w).
Proof.
  split; [|reflexivity].
  intros e. unfold except_Exception. py_unfold.
  destruct (active_runs w !! run_id) as [info|] eqn:Hin; simpl.
  - rewrite Hin. simpl. apply lookup_delete_eq.
  - done.
Qed.

(** * The model at work *)

Lemma demo_gateway_fresh (statuses : nat -> string) (cancel_ok : bool) :
  fresh_run_ids (demo_gateway statuses cancel_ok).
Proof.
  intros c1 c2 t1 t2 th1 th2 a1 a2 r H1 H2. simpl in *.
  simplify_eq. apply (inj pretty).
  by eapply (inj (String.app "run_")).
Qed.

(** C4: with ["r1"] registered and the run completed, the registry at the
    moment the messages are listed still holds ["r1"]; the entry is deleted
    after that call. *)
Lemma listing_sees_entry :
  fst (process_query_resume gw_done demo_str demo_client "t1" "r1" w_registered)
    = Finished (Answer "hello" "t1" "r1") /\
  history (snd (process_query_resume gw_done demo_str demo_client "t1" "r1" w_registered))
    = [ Removed "r1";
        Call (MessagesList "t1") {[ "r1" := demo_info "running" ]};
        Call (RunsRetrieve "t1" "r1") {[ "r1" := demo_info "running" ]} ] /\
  ({[ "r1" := demo_info "running" ]} : Registry) !! "r1" <> None.
Proof. vm_compute. repeat split. discriminate. Qed.

Lemma cancel_request_then_tick_witness :
  active_runs w_registered !! "r1" = Some (demo_info "running") /\
  fst (stop_endpoint "r1" w_registered) = Stopping /\
  fst (process_query_resume gw_idle demo_str demo_client "t1" "r1"
         (snd (stop_endpoint "r1" w_registered)))
    = Finished (CancelledResponse "t1") /\
  active_runs (snd (process_query_resume gw_idle demo_str demo_client "t1" "r1"
                      (snd (stop_endpoint "r1" w_registered)))) !! "r1" = None.
Proof.
  split; [reflexivity|].
  destruct (cancel_request_then_tick gw_idle demo_str demo_client "t1" "r1"
              w_registered (demo_info "running") "in_progress")
    as (H1 & H2 & _ & H4 & _); [reflexivity|reflexivity|reflexivity|].
  repeat split; assumption.
Defined.

(** C8: with ["r1"] flagged and the poll reporting "completed", a service
    that refuses the cancellation makes the loop answer 500 with the
    service's error; it does not answer "cancelled". *)
Lemma refused_cancellation_is_not_cancelled :
  active_runs w_flagged !! "r1" = Some (demo_info "cancelled") /\
  runs_retrieve gw_refusing demo_client (clock w_flagged) "t1" "r1" = Ok "completed" /\
  fst (process_query_resume gw_refusing demo_str demo_client "t1" "r1" w_flagged)
    = Finished (HTTPError 500 "Cannot cancel run with status 'completed'.") /\
  fst (process_query_resume gw_refusing demo_str demo_client "t1" "r1" w_flagged)
    <> Finished (CancelledResponse "t1").
Proof. vm_compute. repeat split. discriminate. Qed.

Lemma cancelled_flag_beats_terminal_status_witness :
  fst (process_query_resume gw_done demo_str demo_client "t1" "r1" w_flagged)
    = Finished (CancelledResponse "t1") /\
  fst (process_query_resume gw_refusing demo_str demo_client "t1" "r1" w_flagged)
    = Finished (HTTPError 500 "Cannot cancel run with status 'completed'.").
Proof.
  split.
  - destruct (cancelled_flag_beats_terminal_status gw_done demo_str demo_client
                "t1" "r1" w_flagged (demo_info "cancelled") "completed")
      as (H & _); [reflexivity|reflexivity|reflexivity|by left|].
    apply H. reflexivity.
  - destruct (cancelled_flag_beats_terminal_status gw_refusing demo_str demo_client
                "t1" "r1" w_flagged (demo_info "cancelled") "completed")
      as (_ & H & _); [reflexivity|reflexivity|reflexivity|by left|].
    apply (H "Cannot cancel run with status 'completed'."). reflexivity.
Defined.

Lemma completed_lists_then_removes_witness :
  fst (process_query_resume gw_done demo_str demo_client "t1" "r1" w_registered)
    = Finished (Answer "hello" "t1" "r1").
Proof.
  apply (completed_lists_then_removes gw_done demo_str demo_client "t1" "r1"
           w_registered (demo_info "running") "hello" [] []);
    [reflexivity|discriminate|reflexivity|reflexivity].
Defined.

Lemma failed_run_answers_500_witness :
  fst (process_query_resume gw_failed demo_str demo_client "t1" "r1" w_registered)
    = Finished (HTTPError 500 (demo_str (HTTPException 500 "Assistant run failed"))).
Proof.
  apply (failed_run_answers_500 gw_failed demo_str demo_client "t1" "r1"
           w_registered (demo_info "running"));
    [reflexivity|discriminate|reflexivity].
Defined.

(** C5: the handler of run ["r1"] is asleep at line 98 when its task is
    cancelled.  [CancelledError] is raised inside the [try], is not caught by
    [except Exception], and leaves the handler; the entry of ["r1"] is still
    in the registry. *)
Lemma cancelled_sleep_leaves_entry :
  fst (process_query_cancelled demo_str "r1" w_registered) = inr CancelledError /\
  active_runs (snd (process_query_cancelled demo_str "r1" w_registered)) !! "r1"
    = Some (demo_info "running") /\
  active_runs (snd (process_query_cancelled demo_str "r1" w_registered)) !! "r1"
    <> None.
Proof. vm_compute. repeat split. discriminate. Qed.

Lemma no_entry_leaked_witness :
  active_runs (snd (process_query_resume gw_failed demo_str demo_client "t1" "r1"
                      w_registered)) !! "r1" = None /\
  active_runs (snd (process_query demo_map gw_done demo_str (demo_request None)
                      (demo_world ∅))) !! "run_2" = None.
Proof.
  split.
  - apply (no_entry_leaked demo_map gw_failed demo_str demo_client "t1" "r1"
             (demo_request None) w_registered
             (HTTPError 500 (demo_str (HTTPException 500 "Assistant run failed")))).
    reflexivity.
  - apply (no_entry_leaked demo_map gw_done demo_str demo_client "t1" "run_2"
             (demo_request None) (demo_world ∅) (Answer "hello" "thread_0" "run_2")).
    + reflexivity.
    + reflexivity.
Defined.

Lemma empty_thread_id_means_new_thread_witness :
  process_query demo_map gw_idle demo_str (demo_request (Some "")) (demo_world ∅)
    = process_query demo_map gw_idle demo_str (demo_request None) (demo_world ∅) /\
  fst (process_query demo_map gw_idle demo_str (demo_request (Some "")) (demo_world ∅))
    = Polling demo_client "thread_0" "run_2" /\
  fst (process_query demo_map gw_idle demo_str (demo_request (Some "t9")) (demo_world ∅))
    = Polling demo_client "t9" "run_1".
Proof.
  destruct (empty_thread_id_means_new_thread demo_map gw_idle demo_str
              "acme" "hi" "asst_1" "sk-1" "thread_0" "t9" (demo_world ∅))
    as (H1 & _); [reflexivity|reflexivity|discriminate|].
  split; [exact H1|]. split; reflexivity.
Defined.

(** C2: the server has one handler, asleep in the polling loop of the run
    ["run_2"] it registered.  Its task is cancelled: [CancelledError] leaves
    the handler through the [except Exception] clause, the process state is
    untouched, and the entry of ["run_2"] stays in the registry with no loop
    left to remove it. *)
Lemma cancelled_handler_entry_without_loop :
  tasks s_polling = [Polling demo_client "thread_0" "run_2"] /\
  process_query_cancelled demo_str "run_2" (world s_polling)
    = (inr CancelledError, world s_polling) /\
  active_runs (world s_polling) !! "run_2"
    = Some (new_entry demo_client "thread_0").
Proof. vm_compute. repeat split. Qed.

Lemma registry_invariant_witness :
  fresh_run_ids gw_idle /\
  (forall run_id,
     count_registered run_id
       (history (world (run_server demo_map gw_idle demo_str boot demo_session)))
     <= 1) /\
  exists resp,
    fst (process_query_resume gw_idle demo_str demo_client "thread_0" "run_2"
           (world (run_server demo_map gw_idle demo_str boot
                     [Query (demo_request None); Stop "run_2"])))
      = Finished resp.
Proof.
  split; [apply demo_gateway_fresh|]. split.
  - apply (registry_invariant demo_map gw_idle demo_str
             (demo_gateway_fresh in_progress true) demo_session).
  - destruct (registry_invariant demo_map gw_idle demo_str
                (demo_gateway_fresh in_progress true)
                [Query (demo_request None); Stop "run_2"])
      as (_ & _ & _ & _ & _ & _ & H).
    destruct (H 0 demo_client "thread_0" "run_2" eq_refl) as (info & Hin & _ & Hend).
    apply Hend. left.
    assert (Hflag : active_runs (world (run_server demo_map gw_idle demo_str boot
                      [Query (demo_request None); Stop "run_2"])) !! "run_2"
                    = Some {| thread_id := "thread_0"; client := demo_client;
                              status := "cancelled" |}) by reflexivity.
    rewrite Hflag in Hin. by injection Hin as <-.
Defined.

Lemma own_entry_always_present_witness :
  fresh_run_ids gw_idle /\
  key_errors (history (world (run_server demo_map gw_idle demo_str boot demo_session))) = 0.
Proof.
  split; [apply demo_gateway_fresh|].
  apply (own_entry_always_present demo_map gw_idle demo_str
           (demo_gateway_fresh in_progress true) demo_session).
Defined.

(** The session of [demo_session], run: the first stop request is
    acknowledged, the next pass of the loop answers the query with the
    cancellation and empties the registry, the second stop request is
    answered 404. *)
Example demo_session_run :
  let s := run_server demo_map gw_idle demo_str boot demo_session in
  tasks s = [Finished (CancelledResponse "thread_0")] /\
  stop_replies s = [HTTPError 404 "Run not found or already completed"; Stopping] /\
  active_runs (world s) = ∅.
Proof. vm_compute. done. Qed.

Lemma poll_failure_answers_500_witness :
  fst (process_query_resume gw_down demo_str demo_client "t1" "r1" w_flagged)
    = Finished (HTTPError 500 "Connection error.") /\
  active_runs (snd (process_query_resume gw_down demo_str demo_client "t1" "r1" w_flagged))
    = ∅.
Proof.
  rewrite (poll_failure_answers_500 gw_down demo_str demo_client "t1" "r1" w_flagged
             (demo_info "cancelled") "Connection error." eq_refl eq_refl).
  split; reflexivity.
Defined.

Lemma completed_without_text_answers_500_witness :
  exists e,
    (e = IndexError \/ e = AttributeError) /\
    fst (process_query_resume gw_silent demo_str demo_client "t1" "r1" w_registered)
      = Finished (HTTPError 500 (demo_str e)).
Proof.
  destruct (completed_without_text_answers_500 gw_silent demo_str demo_client "t1" "r1"
              w_registered (demo_info "running") [])
    as (e & He & Hf & _); [reflexivity|discriminate|reflexivity|reflexivity|by left|].
  exists e. split; assumption.
Defined.

Lemma refused_cancellation_answers_500_witness :
  fst (process_query_resume gw_refusing demo_str demo_client "t1" "r1" w_flagged)
    = Finished (HTTPError 500 "Cannot cancel run with status 'completed'.").
Proof.
  apply (refused_cancellation_answers_500 gw_refusing demo_str demo_client "t1" "r1"
           w_flagged (demo_info "cancelled") "completed"
           "Cannot cancel run with status 'completed'.");
    reflexivity.
Defined.

Lemma reply_only_when_completed_witness :
  runs_retrieve gw_done demo_client (clock w_registered) "t1" "r1" = Ok "completed".
Proof.
  apply (reply_only_when_completed gw_done demo_str demo_client "t1" "r1" w_registered
           "hello" "t1" "r1").
  reflexivity.
Defined.

Lemma cancelled_only_when_flagged_witness :
  exists info, active_runs w_flagged !! "r1" = Some info /\ status info = "cancelled".
Proof.
  apply (cancelled_only_when_flagged gw_done demo_str demo_client "t1" "r1" w_flagged "t1").
  reflexivity.
Defined.

Lemma stop_of_other_run_is_invisible_witness :
  "r2" <> "r1" /\
  fst (process_query_resume gw_done demo_str demo_client "t1" "r1"
         (snd (stop_endpoint "r2" w_registered)))
    = fst (process_query_resume gw_done demo_str demo_client "t1" "r1" w_registered).
Proof.
  split; [discriminate|].
  apply (stop_of_other_run_is_invisible gw_done demo_str demo_client "t1" "r1" "r2"
           w_registered).
  discriminate.
Defined.

Lemma stop_only_sets_flag_witness :
  active_runs (snd (stop_endpoint "r1" w_registered)) !! "r1"
    = Some (demo_info "cancelled").
Proof.
  apply (stop_only_sets_flag "r1" w_registered (demo_info "running")).
  reflexivity.
Defined.

Lemma failure_before_run_answers_500_witness :
  fst (process_query demo_map gw_down demo_str (demo_request None) (demo_world ∅))
    = Finished (HTTPError 500 "Connection error.").
Proof.
  apply (failure_before_run_answers_500 demo_map gw_down demo_str (demo_request None)
           (demo_world ∅)
           (snd (open_run gw_down demo_client "asst_1" (demo_request None) (demo_world ∅)))
           "asst_1" "sk-1" (APIError "Connection error."));
    reflexivity.
Defined.

Lemma calls_of_first_activation_witness :
  process_query demo_map gw_done demo_str
    {| client_id := "nobody"; query := "hi"; req_thread_id := None |} (demo_world ∅)
    = (Finished (HTTPError 404 "Client ID not found"), demo_world ∅).
Proof.
  apply (calls_of_first_activation demo_map gw_done demo_str
           {| client_id := "nobody"; query := "hi"; req_thread_id := None |}
           (demo_world ∅)).
  reflexivity.
Defined.

Lemma pending_run_polls_forever_witness :
  tasks (run_server demo_map gw_idle demo_str s_polling (replicate 3 (Wake 0)))
    = tasks s_polling /\
  clock (world (run_server demo_map gw_idle demo_str s_polling (replicate 3 (Wake 0))))
    = 3 + clock (world s_polling).
Proof.
  destruct (pending_run_polls_forever demo_map gw_idle demo_str 3 s_polling 0
              demo_client "thread_0" "run_2" (new_entry demo_client "thread_0"))
    as (H1 & _ & H3); [reflexivity|reflexivity|discriminate| |by split].
  intros t _. exists "in_progress". repeat split; discriminate.
Defined.

Lemma flag_is_never_reset_witness :
  fresh_run_ids gw_idle /\
  (active_runs (world (run_server demo_map gw_idle demo_str
      (run_server demo_map gw_idle demo_str boot [Query (demo_request None); Stop "run_2"])
      [Query (demo_request None); Stop "run_6"])) !! "run_2" = None \/
   status <$> active_runs (world (run_server demo_map gw_idle demo_str
      (run_server demo_map gw_idle demo_str boot [Query (demo_request None); Stop "run_2"])
      [Query (demo_request None); Stop "run_6"])) !! "run_2" = Some "cancelled").
Proof.
  split; [apply demo_gateway_fresh|].
  apply (flag_is_never_reset demo_map gw_idle demo_str
           (demo_gateway_fresh in_progress true)
           [Query (demo_request None); Stop "run_2"]
           [Query (demo_request None); Stop "run_6"] "run_2").
  reflexivity.
Defined.

Lemma colour_without_hash_is_copied_witness :
  script_endpoint demo_map demo_int16 demo_open demo_color demo_light demo_rest
    "acme" (Some "red; } body { display: none")
    = ScriptBody (demo_open +:+ "acme" +:+ demo_color +:+ "red; } body { display: none"
                  +:+ demo_light +:+ "rgba(184, 148, 247, 0.1)" +:+ demo_rest).
Proof.
  apply (colour_without_hash_is_copied demo_map demo_int16
           demo_open demo_color demo_light demo_rest "acme" "red; } body { display: none").
  - vm_compute. eauto.
  - reflexivity.
Defined.

Lemma short_hash_colour_answers_500_witness :
  script_endpoint demo_map demo_int16 demo_open demo_color demo_light demo_rest
    "acme" (Some "#fff")
    = ScriptError 500 "Internal Server Error".
Proof.
  apply (short_hash_colour_answers_500 demo_map demo_int16
           demo_open demo_color demo_light demo_rest "acme" "#fff").
  - vm_compute. eauto.
  - reflexivity.
  - vm_compute. lia.
  - reflexivity.
Defined.

Lemma characters_after_the_seventh_are_not_read_witness :
  parse_rgb demo_int16 ("#b894f7" +:+ "; } body { display: none")
    = parse_rgb demo_int16 "#b894f7".
Proof.
  apply (characters_after_the_seventh_are_not_read demo_map demo_int16
           demo_open demo_color demo_light demo_rest "acme" "#b894f7"
           "; } body { display: none").
  - vm_compute. eauto.
  - reflexivity.
Defined.

Lemma script_errors_witness :
  (ValueError = Plain (HTTPException 404 "Client ID not found") /\
   demo_map !! "acme" = None) \/
  (ValueError = ValueError /\
   is_Some (demo_map !! "acme") /\
   starts_with_hash (default "#b894f7" (Some "#ggg")) = true /\
   parse_rgb demo_int16 (default "#b894f7" (Some "#ggg")) = None).
Proof.
  apply (script_errors demo_map demo_int16 demo_open demo_color demo_light demo_rest
           "acme" (Some "#ggg") ValueError).
  reflexivity.
Defined.

Lemma widget_components_witness :
  generate_widget_script demo_open demo_color demo_light demo_rest "acme" "#fff"
    (Some [255; 255]%Z)
    = inl (Plain IndexError).
Proof.
  destruct (widget_components demo_open demo_color demo_light demo_rest "acme" "#fff"
              [255; 255]%Z) as (_ & H & _).
  apply H. simpl. lia.
Defined.

Lemma hex_colour_gives_rgba_witness :
  script_endpoint demo_map demo_int16 demo_open demo_color demo_light demo_rest
    "acme" (Some "#b894F7")
    = ScriptBody (demo_open +:+ "acme" +:+ demo_color +:+ "#b894F7" +:+ demo_light
                  +:+ "rgba(184, 148, 247, 0.1)" +:+ demo_rest).
Proof.
  apply (hex_colour_gives_rgba demo_map demo_int16 demo_open demo_color demo_light
           demo_rest "acme" "b" "8" "9" "4" "F" "7" 11 8 9 4 15 7).
  - intros a b x y Ha Hb. simpl. by rewrite Ha, Hb.
  - vm_compute. eauto.
  - reflexivity.
  - reflexivity.
  - reflexivity.
  - reflexivity.
  - reflexivity.
  - reflexivity.
Defined.

Lemma calls_per_pass_witness :
  clock (snd (process_query_resume gw_idle demo_str demo_client "t1" "r1" w_registered))
    = S (clock w_registered).
Proof.
  destruct (calls_per_pass gw_idle demo_str demo_client "t1" "r1" w_registered)
    as [_ H].
  apply (H demo_client "t1" "r1"). reflexivity.
Defined.
